(** * AWS-Chatbot: the message-routing and conversation-context pipeline

    A shallow embedding of [src/app.py]: the knowledge base, the
    conversation manager, the practice-question generator, the chatbot's
    detector and message processor, and the HTTP views that wrap them.

    Conventions of the embedding
    - a Python [str] is a [string] (its UTF-8 bytes); [Optional[str]] is
      [option string], with [None] for Python's [None];
    - [str.lower], [str.upper] and [str.title] are Unicode-aware in Python;
      with [str.strip] they are the methods of the class [CaseOps].  Theorems that hold for
      every text are stated for every instance; the scenarios on concrete
      ASCII messages run with the instance [ascii_case], which agrees with
      Python on ASCII text;
    - a Python exception is a value of [PyExn], and a call that may raise
      returns [Exc A];
    - dictionaries keyed by session id or cache key are [gmap string _];
      dictionaries with a fixed literal set of keys are records; tables whose
      iteration order matters are association lists;
    - everything the process reads from outside (the generation service, the
      clock, the random generator, the JSON codec) is a field of [World]. *)

From Stdlib Require Import Ascii DecimalString.
From Stdlib Require String.
From stdpp Require Import gmap strings list fin_maps.

Set Default Proof Using "Type".

(* ===================================================================== *)
(** ** Python values and exceptions *)
(* ===================================================================== *)

Inductive PyExn :=
| AttributeError (obj attr : string)
| UnboundLocalError (var : string)
| NameError (var : string)
| IndexError
| ExternalFault (what : string).

Inductive Exc (A : Type) :=
| Ok (a : A)
| Raise (e : PyExn).
Arguments Ok {A} a.
Arguments Raise {A} e.

#[global] Instance Exc_ret : MRet Exc := fun A a => Ok a.
#[global] Instance Exc_bind : MBind Exc := fun A B k m =>
  match m with
  | Ok a => k a
  | Raise e => Raise e
  end.

(** [try: m except Exception: h] *)
Definition try_except {A} (m : Exc A) (h : PyExn -> Exc A) : Exc A :=
  match m with
  | Ok a => Ok a
  | Raise e => h e
  end.

(** Truthiness of an [Optional[str]]: [None] and [''] are falsy. *)
Definition truthy (v : option string) : bool :=
  match v with
  | None => false
  | Some EmptyString => false
  | Some (String _ _) => true
  end.

(** [a or b] on [Optional[str]] operands. *)
Definition py_or (a b : option string) : option string :=
  if truthy a then a else b.

(** [str(v)], as an f-string renders an [Optional[str]]. *)
Definition py_str (v : option string) : string :=
  match v with
  | Some s => s
  | None => "None"
  end.

(** [d.get(key, default)]: [entry] is what the dict holds under the key
    ([None] when the key is absent).  The default is used only for an absent
    key; a key that is present with the value [None] yields [None]. *)
Definition dict_get {A} (entry : option A) (default : A) : A :=
  match entry with
  | Some v => v
  | None => default
  end.

(* ===================================================================== *)
(** ** Strings *)
(* ===================================================================== *)

Class CaseOps := {
  str_lower : string -> string;
  str_upper : string -> string;
  str_title : string -> string;
  str_strip : string -> string
}.

(** [needle in hay] *)
Fixpoint str_in (needle hay : string) : bool :=
  String.prefix needle hay ||
  match hay with
  | EmptyString => false
  | String _ rest => str_in needle rest
  end.

(** [any(w in text for w in words)] *)
Definition any_in (words : list string) (text : string) : bool :=
  existsb (fun w => str_in w text) words.

(** [', '.join(parts)] and friends *)
Fixpoint str_join (sep : string) (parts : list string) : string :=
  match parts with
  | [] => ""
  | [p] => p
  | p :: rest => p +:+ sep +:+ str_join sep rest
  end.

(** [str(n)] for a non-negative [int] *)
Definition str_of_nat (n : nat) : string :=
  NilEmpty.string_of_uint (Nat.to_uint n).

(** The double-quote character, for the literals that contain it. *)
Definition dq : string := String (ascii_of_nat 34) EmptyString.
Definition quoted (s : string) : string := dq +:+ s +:+ dq.

Module AsciiCase.

Definition is_upper (c : ascii) : bool :=
  let n := nat_of_ascii c in (65 <=? n) && (n <=? 90).
Definition is_lower (c : ascii) : bool :=
  let n := nat_of_ascii c in (97 <=? n) && (n <=? 122).
Definition to_lower (c : ascii) : ascii :=
  if is_upper c then ascii_of_nat (nat_of_ascii c + 32) else c.
Definition to_upper (c : ascii) : ascii :=
  if is_lower c then ascii_of_nat (nat_of_ascii c - 32) else c.

Fixpoint map_chars (f : ascii -> ascii) (s : string) : string :=
  match s with
  | EmptyString => EmptyString
  | String c rest => String (f c) (map_chars f rest)
  end.

(** [str.title]: a letter that follows a letter is lowered, any other
    letter is raised. *)
Fixpoint title_from (after_letter : bool) (s : string) : string :=
  match s with
  | EmptyString => EmptyString
  | String c rest =>
      String (if after_letter then to_lower c else to_upper c)
             (title_from (is_upper c || is_lower c) rest)
  end.

(** ASCII white space: tab, line feed, vertical tab, form feed, carriage
    return, the four separators and the space. *)
Definition is_space (c : ascii) : bool :=
  let n := nat_of_ascii c in
  ((9 <=? n) && (n <=? 13)) || ((28 <=? n) && (n <=? 32)).

Fixpoint lstrip (s : string) : string :=
  match s with
  | EmptyString => EmptyString
  | String c rest => if is_space c then lstrip rest else s
  end.

Fixpoint rstrip (s : string) : string :=
  match s with
  | EmptyString => EmptyString
  | String c rest =>
      match rstrip rest with
      | EmptyString => if is_space c then EmptyString else String c EmptyString
      | kept => String c kept
      end
  end.

End AsciiCase.

Definition ascii_case : CaseOps := {|
  str_lower := AsciiCase.map_chars AsciiCase.to_lower;
  str_upper := AsciiCase.map_chars AsciiCase.to_upper;
  str_title := AsciiCase.title_from false;
  str_strip := fun s => AsciiCase.rstrip (AsciiCase.lstrip s)
|}.

(** [obj.upper()] where [obj] may be [None]. *)
Definition upper_of `{CaseOps} (obj : option string) : Exc string :=
  match obj with
  | Some s => Ok (str_upper s)
  | None => Raise (AttributeError "NoneType" "upper")
  end.

(* ===================================================================== *)
(** ** The knowledge base ([AWS_SERVICES]) *)
(* ===================================================================== *)

Record ServiceEntry := {
  svc_name : string;
  svc_description : string;
  svc_console : string;
  svc_cli : string;
  svc_sdk : string;
  svc_troubleshoot : list string;
  svc_subtopics : list string
}.

Definition AWS_SERVICES : list (string * ServiceEntry) := [
  ("ec2", {|
     svc_name := "Amazon EC2";
     svc_description := "Virtual servers in the cloud";
     svc_console := "EC2 Dashboard → Launch Instance → Select AMI → Choose Instance Type → Configure → Launch";
     svc_cli := "aws ec2 run-instances --image-id ami-xxxxx --instance-type t2.micro";
     svc_sdk := "boto3.client(" +:+ quoted "ec2" +:+ ").run_instances(ImageId="
                +:+ quoted "ami-xxx" +:+ ", InstanceType=" +:+ quoted "t2.micro" +:+ ")";
     svc_troubleshoot := ["Check IAM permissions"; "Verify security groups";
                          "Check instance state"; "Review VPC settings"];
     svc_subtopics := ["launch"; "security groups"; "key pairs"; "AMI";
                       "instance types"; "pricing"] |});
  ("s3", {|
     svc_name := "Amazon S3";
     svc_description := "Object storage service";
     svc_console := "S3 Dashboard → Create Bucket → Enter name → Select region → Create";
     svc_cli := "aws s3 mb s3://bucket-name && aws s3 cp file.txt s3://bucket-name/";
     svc_sdk := "boto3.client(" +:+ quoted "s3" +:+ ").create_bucket(Bucket="
                +:+ quoted "bucket-name" +:+ ")";
     svc_troubleshoot := ["Check bucket policies"; "Verify IAM permissions";
                          "Check region settings"; "Review CORS configuration"];
     svc_subtopics := ["buckets"; "storage classes"; "lifecycle policies";
                       "versioning"; "encryption"; "static hosting"] |});
  ("lambda", {|
     svc_name := "AWS Lambda";
     svc_description := "Serverless compute service";
     svc_console := "Lambda Dashboard → Create Function → Select runtime → Write code → Test";
     svc_cli := "aws lambda create-function --function-name myFunc --runtime python3.9 --role arn:aws:iam::role";
     svc_sdk := "boto3.client(" +:+ quoted "lambda" +:+ ").create_function(FunctionName="
                +:+ quoted "myFunc" +:+ ", Runtime=" +:+ quoted "python3.9" +:+ ")";
     svc_troubleshoot := ["Check CloudWatch logs"; "Verify execution role";
                          "Check timeout settings"; "Review memory allocation"];
     svc_subtopics := ["triggers"; "layers"; "environment variables";
                       "cold starts"; "pricing"; "limits"] |});
  ("iam", {|
     svc_name := "AWS IAM";
     svc_description := "Identity and Access Management";
     svc_console := "IAM Dashboard → Users/Roles → Create → Attach policies → Review";
     svc_cli := "aws iam create-user --user-name myuser && aws iam attach-user-policy";
     svc_sdk := "boto3.client(" +:+ quoted "iam" +:+ ").create_user(UserName="
                +:+ quoted "myuser" +:+ ")";
     svc_troubleshoot := ["Check policy syntax"; "Verify permissions";
                          "Check trust relationships"; "Review MFA settings"];
     svc_subtopics := ["users"; "roles"; "policies"; "groups"; "MFA";
                       "access keys"; "federation"] |});
  ("vpc", {|
     svc_name := "Amazon VPC";
     svc_description := "Virtual Private Cloud";
     svc_console := "VPC Dashboard → Create VPC → Configure subnets → Set up routing";
     svc_cli := "aws ec2 create-vpc --cidr-block 10.0.0.0/16";
     svc_sdk := "boto3.client(" +:+ quoted "ec2" +:+ ").create_vpc(CidrBlock="
                +:+ quoted "10.0.0.0/16" +:+ ")";
     svc_troubleshoot := ["Check route tables"; "Verify NACL rules";
                          "Check internet gateway"; "Review peering connections"];
     svc_subtopics := ["subnets"; "route tables"; "internet gateway";
                       "NAT gateway"; "VPC peering"; "endpoints"] |});
  ("rds", {|
     svc_name := "Amazon RDS";
     svc_description := "Relational Database Service";
     svc_console := "RDS Dashboard → Create Database → Choose engine → Configure → Launch";
     svc_cli := "aws rds create-db-instance --db-instance-identifier mydb --db-instance-class db.t3.micro";
     svc_sdk := "boto3.client(" +:+ quoted "rds" +:+ ").create_db_instance(DBInstanceIdentifier="
                +:+ quoted "mydb" +:+ ")";
     svc_troubleshoot := ["Check security groups"; "Verify subnet groups";
                          "Check parameter groups"; "Review backup settings"];
     svc_subtopics := ["engines"; "multi-az"; "read replicas"; "backups";
                       "encryption"; "performance insights"] |});
  ("cloudwatch", {|
     svc_name := "Amazon CloudWatch";
     svc_description := "Monitoring and observability service";
     svc_console := "CloudWatch Dashboard → Create Dashboard → Add widgets → Configure metrics";
     svc_cli := "aws cloudwatch put-metric-data --namespace " +:+ quoted "MyApp" +:+ " --metric-data";
     svc_sdk := "boto3.client(" +:+ quoted "cloudwatch" +:+ ").put_metric_data(Namespace="
                +:+ quoted "MyApp" +:+ ")";
     svc_troubleshoot := ["Check metric filters"; "Verify alarm thresholds";
                          "Review log groups"; "Check retention policies"];
     svc_subtopics := ["metrics"; "alarms"; "logs"; "dashboards"; "events";
                       "insights"] |})
].

(** [table[key]] / [key in table] / [table.get(key)] on an ordered table *)
Fixpoint assoc {V} (key : string) (table : list (string * V)) : option V :=
  match table with
  | [] => None
  | (k, v) :: rest => if String.eqb key k then Some v else assoc key rest
  end.

(** [list(AWS_SERVICES.keys())] *)
Definition service_ids : list string := map fst AWS_SERVICES.

(* ===================================================================== *)
(** ** Detector ([OptimizedAWSChatbot.detect_*]) *)
(* ===================================================================== *)

Definition service_keywords : list (string * list string) := [
  ("ec2", ["ec2"; "instance"; "server"; "virtual machine"; "ami"; "compute"]);
  ("s3", ["s3"; "bucket"; "storage"; "object"; "file storage"]);
  ("lambda", ["lambda"; "serverless"; "function"; "faas"]);
  ("iam", ["iam"; "user"; "role"; "permission"; "policy"; "access"]);
  ("vpc", ["vpc"; "network"; "subnet"; "security group"; "routing"]);
  ("rds", ["rds"; "database"; "mysql"; "postgres"; "sql"]);
  ("cloudwatch", ["cloudwatch"; "monitoring"; "logs"; "metrics"; "alarm"])
].

(** [sum(2 if keyword in msg_lower else 0 for keyword in keywords)] *)
Definition keyword_score (msg_lower : string) (keywords : list string) : nat :=
  list_sum (map (fun keyword => if str_in keyword msg_lower then 2 else 0) keywords).

(** The loop that fills [scores]: one entry per service whose score is
    positive, in the order of the table. *)
Fixpoint build_scores (msg_lower : string) (table : list (string * list string))
  : list (string * nat) :=
  match table with
  | [] => []
  | (service, keywords) :: rest =>
      let score := keyword_score msg_lower keywords in
      if 0 <? score then (service, score) :: build_scores msg_lower rest
      else build_scores msg_lower rest
  end.

(** [max(scores, key=scores.get)] over a non-empty dict: the running best is
    replaced only by a strictly larger score, so the first maximum wins. *)
Fixpoint max_from (best : string * nat) (scores : list (string * nat)) : string * nat :=
  match scores with
  | [] => best
  | entry :: rest => max_from (if snd best <? snd entry then entry else best) rest
  end.

Definition max_by_score (scores : list (string * nat)) : option string :=
  match scores with
  | [] => None
  | first :: rest => Some (fst (max_from first rest))
  end.

Definition detect_service `{CaseOps} (message : string) : option string :=
  let msg_lower := str_lower message in
  let scores := build_scores msg_lower service_keywords in
  max_by_score scores.

(** [for topic in subtopics: if topic.lower() in msg_lower: return topic] *)
Fixpoint first_topic `{CaseOps} (msg_lower : string) (subtopics : list string)
  : option string :=
  match subtopics with
  | [] => None
  | topic :: rest =>
      if str_in (str_lower topic) msg_lower then Some topic
      else first_topic msg_lower rest
  end.

Definition detect_topic `{CaseOps} (message : string) (service : option string)
  : option string :=
  match service with
  | None => None
  | Some s =>
      if negb (truthy service) then None
      else match assoc s AWS_SERVICES with
           | None => None
           | Some entry => first_topic (str_lower message) (svc_subtopics entry)
           end
  end.

Definition detect_access_method `{CaseOps} (message : string) : option string :=
  let msg_lower := str_lower message in
  if any_in ["console"; "gui"; "dashboard"; "web"; "ui"] msg_lower then Some "console"
  else if any_in ["cli"; "command"; "terminal"; "cmd"] msg_lower then Some "cli"
  else if any_in ["sdk"; "python"; "boto3"; "code"; "javascript"; "api"] msg_lower then Some "sdk"
  else None.


(* ===================================================================== *)
(** ** ConversationManager *)
(* ===================================================================== *)

(** One entry of a session's [history]. *)
Record Exchange := {
  h_user : string;
  h_bot : string;
  h_service : option string;
  h_topic : option string;
  h_timestamp : string
}.

(** The dict kept per session id.  Both places that build one
    ([store_context] and the default of [get_context]) give it the four keys,
    so every context has them. *)
Record Context := {
  history : list Exchange;
  current_service : option string;
  current_topic : option string;
  follow_up_count : nat
}.

Definition empty_context : Context :=
  {| history := []; current_service := None; current_topic := None;
     follow_up_count := 0 |}.

Definition append_history (e : Exchange) (c : Context) : Context :=
  {| history := history c ++ [e]; current_service := current_service c;
     current_topic := current_topic c; follow_up_count := follow_up_count c |}.

Definition set_current_service (service : option string) (c : Context) : Context :=
  {| history := history c; current_service := service;
     current_topic := current_topic c; follow_up_count := follow_up_count c |}.

Definition set_current_topic (topic : option string) (c : Context) : Context :=
  {| history := history c; current_service := current_service c;
     current_topic := topic; follow_up_count := follow_up_count c |}.

(** [store_context]; [timestamp] is what [datetime.now().isoformat()] returns
    during the call. *)
Definition store_context (conversations : gmap string Context)
    (session_id user_message bot_response : string)
    (service topic : option string) (timestamp : string) : gmap string Context :=
  let conversations :=
    match conversations !! session_id with
    | None => <[session_id := empty_context]> conversations
    | Some _ => conversations
    end in
  let conversations :=
    alter (append_history {| h_user := user_message; h_bot := bot_response;
                             h_service := service; h_topic := topic;
                             h_timestamp := timestamp |})
          session_id conversations in
  let conversations :=
    if truthy service then alter (set_current_service service) session_id conversations
    else conversations in
  if truthy topic then alter (set_current_topic topic) session_id conversations
  else conversations.

Definition get_context (conversations : gmap string Context) (session_id : string)
  : Context :=
  default empty_context (conversations !! session_id).

Definition follow_up_indicators : list string := [
  "aur"; "and"; "also"; "kya"; "how about"; "what about";
  "uske baad"; "phir"; "then"; "next"; "more"; "detail";
  "explain"; "batao"; "samjhao"; "iske alawa"
].

Definition is_follow_up `{CaseOps} (message : string) (context : Context) : bool :=
  any_in follow_up_indicators (str_lower message) && (0 <? length (history context)).

(** [clear_conversation]'s effect on the store. *)
Definition clear (conversations : gmap string Context) (session_id : string)
  : gmap string Context :=
  match conversations !! session_id with
  | Some _ => delete session_id conversations
  | None => conversations
  end.

(* ===================================================================== *)
(** ** The world outside the process *)
(* ===================================================================== *)

(** What [json.loads] returns. *)
#[local] Unset Elimination Schemes.
Inductive Json :=
| JNull
| JBool (b : bool)
| JNumber (literal : string)
| JString (s : string)
| JArray (items : list Json)
| JObject (members : list (string * Json)).
#[local] Set Elimination Schemes.

(** The generation service behind [model]: a call returns the [text] of the
    reply or raises. *)
Record Gemini := {
  generate_content : string -> Exc string;
  generate_content_image : string -> string -> Exc string
}.

Record World := {
  (** [os.environ.get('GEMINI_API_KEY')] *)
  GEMINI_API_KEY : option string;
  (** the service reached through [genai.GenerativeModel] *)
  gemini_service : Gemini;
  (** [datetime.now().isoformat()] during the request *)
  now_isoformat : string;
  (** [ConversationManager.get_session_id()]: the first 8 hex digits of the
      MD5 of ["default_<today>"] *)
  get_session_id : string;
  (** the index [random.choice] draws *)
  random_draw : nat;
  (** [json.loads] *)
  json_loads : string -> Exc Json;
  (** [json.dumps] of a slice of the history *)
  json_dumps : list Exchange -> string;
  (** [Image.open(io.BytesIO(base64.b64decode(image_data.split(',')[1])))]:
      the decoded picture, or the fault of any of the three steps *)
  open_image : string -> Exc string
}.

(** The module global [model]: bound only when the key is truthy. *)
Definition model (w : World) : Exc Gemini :=
  if truthy (GEMINI_API_KEY w) then Ok (gemini_service w)
  else Raise (NameError "model").

(** [self.gemini_available = GEMINI_API_KEY is not None] *)
Definition gemini_available (w : World) : bool :=
  match GEMINI_API_KEY w with
  | Some _ => true
  | None => false
  end.

(** [random.choice(seq)] *)
Definition random_choice (w : World) (seq : list string) : Exc string :=
  match seq !! (random_draw w mod length seq) with
  | Some x => Ok x
  | None => Raise IndexError
  end.

(* ===================================================================== *)
(** ** PracticeQuestionGenerator *)
(* ===================================================================== *)

(** The dict [get_fallback_question] builds. *)
Record PracticeQuestion := {
  pq_question : string;
  pq_options : list string;
  pq_correct : Z;
  pq_explanation : string;
  pq_service : string;
  pq_difficulty : string;
  pq_topic : string
}.

(** What [generate_question] hands back: a dict of the fallback table, or
    whatever [json.loads] made of the service's reply. *)
Inductive QuestionData :=
| Fixed (q : PracticeQuestion)
| Parsed (j : Json).

Definition fallback_questions : list (string * PracticeQuestion) := [
  ("s3_beginner", {|
     pq_question := "S3 bucket create karne ke liye minimum kya chahiye?";
     pq_options := ["Bucket name aur region"; "Only bucket name";
                    "Name, region aur policy"; "AWS account only"];
     pq_correct := 0;
     pq_explanation := "Bucket name unique hona chahiye globally aur region select karna zaroori hai.";
     pq_service := "s3";
     pq_difficulty := "beginner";
     pq_topic := "basic" |});
  ("ec2_intermediate", {|
     pq_question := "Production environment ke liye EC2 instance choose karte time kya consider karna chahiye?";
     pq_options := ["Only price"; "CPU aur memory requirements";
                    "All resources aur redundancy"; "Storage type only"];
     pq_correct := 2;
     pq_explanation := "Production mein CPU, memory, storage, network aur high availability sab consider karna padta hai yaar.";
     pq_service := "ec2";
     pq_difficulty := "intermediate";
     pq_topic := "production" |})
].

(** [get_fallback_question].  The default handed to [dict.get] is built
    before the lookup, so its [service.upper()] runs on every call. *)
Definition get_fallback_question `{CaseOps} (service : option string)
    (difficulty : string) : Exc PracticeQuestion :=
  let key := py_str service +:+ "_" +:+ difficulty in
  upper ← upper_of service;
  mret (dict_get (assoc key fallback_questions) {|
    pq_question := upper +:+ " ke baare mein ek question generate nahi kar paya yaar!";
    pq_options := ["Try again"; "Different service"; "Check connection"; "Contact support"];
    pq_correct := 0;
    pq_explanation := "Technical issue hai, phir se try karo.";
    pq_service := py_str service;
    pq_difficulty := difficulty;
    pq_topic := "error" |}).

(** The prompt of [generate_question], with [service.upper()] already
    evaluated to [upper]. *)
Definition question_prompt (upper topic_context difficulty : string)
    (service topic : option string) : string :=
"
Generate a practical AWS " +:+ upper +:+ " practice question" +:+ topic_context +:+ " for " +:+ difficulty +:+ " level.

Requirements:
1. Question should be in Hinglish (mix of Hindi and English)
2. Provide 4 multiple choice options
3. Mark the correct answer (0-3 index)
4. Give explanation in Hinglish
5. Make it practical, not theoretical

Difficulty guidelines:
- beginner: Basic concepts, simple commands
- intermediate: Configuration, best practices
- advanced: Complex scenarios, troubleshooting

Return ONLY a JSON object with this structure:
{
    " +:+ quoted "question" +:+ ": " +:+ quoted "Question text in Hinglish" +:+ ",
    " +:+ quoted "options" +:+ ": [" +:+ quoted "Option 1" +:+ ", " +:+ quoted "Option 2" +:+ ", " +:+ quoted "Option 3" +:+ ", " +:+ quoted "Option 4" +:+ "],
    " +:+ quoted "correct" +:+ ": 0,
    " +:+ quoted "explanation" +:+ ": " +:+ quoted "Explanation in Hinglish" +:+ ",
    " +:+ quoted "service" +:+ ": " +:+ quoted (py_str service) +:+ ",
    " +:+ quoted "difficulty" +:+ ": " +:+ quoted difficulty +:+ ",
    " +:+ quoted "topic" +:+ ": " +:+ quoted (py_str (py_or topic (Some "general"))) +:+ "
}
".

(** [generate_question]; [cache] is [self.generated_questions], returned as
    the call leaves it. *)
Definition generate_question `{CaseOps} (w : World)
    (cache : gmap string (list QuestionData))
    (service : option string) (difficulty : string) (topic : option string)
  : Exc (QuestionData * gmap string (list QuestionData)) :=
  try_except
    (* [self.model] is [model if GEMINI_API_KEY else None] *)
    (if negb (truthy (GEMINI_API_KEY w)) then
       q ← get_fallback_question service difficulty;
       mret (Fixed q, cache)
     else
       let topic_context :=
         if truthy topic then " specifically about " +:+ py_str topic else "" in
       upper ← upper_of service;
       let prompt := question_prompt upper topic_context difficulty service topic in
       text ← generate_content (gemini_service w) prompt;
       question_data ← json_loads w (str_strip text);
       let question_key :=
         py_str service +:+ "_" +:+ difficulty +:+ "_"
         +:+ py_str (py_or topic (Some "general")) in
       let cached := default [] (cache !! question_key) in
       mret (Parsed question_data,
             <[question_key := cached ++ [Parsed question_data]]> cache))
    (fun _ =>
       q ← get_fallback_question service difficulty;
       mret (Fixed q, cache)).

(* ===================================================================== *)
(** ** OptimizedAWSChatbot *)
(* ===================================================================== *)

Definition create_enhanced_prompt (w : World) (message : string)
    (context : Context) (detected_service : option string) : string :=
  let context_info := "" in
  let context_info :=
    if truthy (current_service context) then
      let info := "Previous context: User was asking about "
                  +:+ py_str (current_service context) in
      if truthy (current_topic context)
      then info +:+ " specifically " +:+ py_str (current_topic context)
      else info
    else context_info in
  let context_info :=
    match history context with
    | [] => context_info
    | _ :: _ =>
        let recent_history := drop (length (history context) - 2) (history context) in
        context_info +:+ "
Recent conversation: " +:+ json_dumps w recent_history
    end in
"
You are an AWS expert who speaks in natural Hinglish and provides well-structured responses.

FORMATTING RULES (VERY IMPORTANT):
1. Use bullet points (•) for lists of features, steps, or options
2. Use numbered points (1. 2. 3.) for sequential steps or procedures  
3. Use **bold** for important terms and headings
4. Use `code blocks` for commands and code
5. Write in paragraphs when explaining concepts
6. Always end with a follow-up question to continue the conversation

RESPONSE STRUCTURE:
- Start with a brief explanation paragraph
- Use bullet points or numbered lists as appropriate
- Include practical examples
- End with " +:+ quoted "Aur kuch puchna hai iske baare mein?" +:+ " or similar

TONE: Friendly Hinglish - use " +:+ quoted "yaar" +:+ ", " +:+ quoted "bhai" +:+ ", " +:+ quoted "dekho" +:+ ", naturally

" +:+ context_info +:+ "

User's question: " +:+ message +:+ "
" +:+ (if truthy detected_service then "Detected service: " +:+ py_str detected_service else "") +:+ "

Provide a helpful, well-formatted response in Hinglish.
        ".

(** [for i, issue in enumerate(issues, start): response += f"{i}. {issue}\n"] *)
Fixpoint numbered (start : nat) (issues : list string) : string :=
  match issues with
  | [] => ""
  | issue :: rest =>
      str_of_nat start +:+ ". " +:+ issue +:+ "
" +:+ numbered (S start) rest
  end.

Definition format_service_info `{CaseOps} (service : string)
    (access_method topic : option string) : string :=
  match assoc service AWS_SERVICES with
  | None => "Sorry yaar, " +:+ service +:+ " ke baare mein detailed info nahi hai abhi."
  | Some service_info =>
      let response := "## **" +:+ svc_name service_info +:+ "**

" in
      let response := response +:+ svc_description service_info +:+ "

" in
      let response :=
        if truthy topic then
          response +:+ "**" +:+ str_title (py_str topic) +:+ "** ke baare mein specific info:

"
        else response in
      let response :=
        if truthy access_method then
          if String.eqb (py_str access_method) "console" then
            response +:+ "**Console Steps:**
" +:+ svc_console service_info +:+ "

"
          else if String.eqb (py_str access_method) "cli" then
            response +:+ "**CLI Command:**
```bash
" +:+ svc_cli service_info +:+ "
```

"
          else if String.eqb (py_str access_method) "sdk" then
            response +:+ "**SDK Code:**
```python
" +:+ svc_sdk service_info +:+ "
```

"
          else response
        else
          let response := response +:+ "**Access kaise kare:**
" in
          let response := response +:+ "• **Console**: " +:+ svc_console service_info +:+ "
" in
          let response := response +:+ "• **CLI**: `" +:+ svc_cli service_info +:+ "`
" in
          response +:+ "• **SDK**: `" +:+ svc_sdk service_info +:+ "`

" in
      let response := response +:+ "**Common Issues aur Solutions:**
" in
      let response := response +:+ numbered 1 (svc_troubleshoot service_info) in
      let response :=
        match svc_subtopics service_info with
        | [] => response
        | _ :: _ => response +:+ "
**Related Topics:** " +:+ str_join ", " (svc_subtopics service_info) +:+ "
"
        end in
      response +:+ "
" +:+ str_upper service +:+ " ke baare mein aur kya jaanna hai?"
  end.

Definition screenshot_not_available : string :=
"**Screenshot Analysis Not Available** 📷

Gemini API key nahi mila yaar! 

**Alternative Solutions:**
1. **Describe karo** - Text mein batao kya dikh raha hai
2. **Error message** - Jo error aa rahi hai wo copy paste kar do  
3. **Service name** - Konsi AWS service use kar rahe ho

**API Key setup ke liye:** `export GEMINI_API_KEY='your-key'`".

Definition screenshot_failed : string :=
"**Screenshot Analysis Failed** 😅

Image process nahi kar paya yaar!

**Alternatives:**
• **Describe karo** - Text mein detail batao
• **Error code** - Exact error message share karo
• **Console section** - Konsa AWS service page khula hai

Phir main help kar sakta hun! 🔧".

Definition screenshot_prompt (context_info message : string) : string :=
"
Analyze this AWS console screenshot and provide structured response in Hinglish.

Context: " +:+ context_info +:+ "
User question: " +:+ message +:+ "

Provide response in this format:
**Service Detected:** [service name]

**Current Status:** [what's happening]  

**Issues Found:**
• [issue 1]
• [issue 2]

**Solutions:**
1. [step 1]
2. [step 2] 
3. [step 3]

**Next Steps:**
What should they do next?

Keep it practical and in Hinglish tone.
            ".

(** [analyze_screenshot]: the whole body is inside its [try], so the method
    always returns a text. *)
Definition analyze_screenshot (w : World) (image_data message : string)
    (context : Context) : string :=
  let attempt : Exc string :=
    if negb (gemini_available w) then Ok screenshot_not_available
    else
      image ← open_image w image_data;
      let context_info :=
        if truthy (current_service context)
        then "User is working with " +:+ py_str (current_service context)
        else "" in
      let prompt := screenshot_prompt context_info message in
      m ← model w;
      generate_content_image m prompt image in
  match attempt with
  | Ok text => text
  | Raise _ => screenshot_failed
  end.

(** The dict [process_message] returns. *)
Record Response := {
  r_message : string;
  r_service_info : option ServiceEntry;
  r_code_examples : option string;
  r_troubleshooting : option string;
  r_practice_question : option QuestionData;
  r_session_id : string;
  r_follow_up_suggestions : list string
}.

Definition set_message (text : string) (r : Response) : Response :=
  {| r_message := text; r_service_info := r_service_info r;
     r_code_examples := r_code_examples r; r_troubleshooting := r_troubleshooting r;
     r_practice_question := r_practice_question r; r_session_id := r_session_id r;
     r_follow_up_suggestions := r_follow_up_suggestions r |}.

Definition set_service_info (info : option ServiceEntry) (r : Response) : Response :=
  {| r_message := r_message r; r_service_info := info;
     r_code_examples := r_code_examples r; r_troubleshooting := r_troubleshooting r;
     r_practice_question := r_practice_question r; r_session_id := r_session_id r;
     r_follow_up_suggestions := r_follow_up_suggestions r |}.

Definition set_practice_question (q : QuestionData) (r : Response) : Response :=
  {| r_message := r_message r; r_service_info := r_service_info r;
     r_code_examples := r_code_examples r; r_troubleshooting := r_troubleshooting r;
     r_practice_question := Some q; r_session_id := r_session_id r;
     r_follow_up_suggestions := r_follow_up_suggestions r |}.

Definition set_follow_up_suggestions (l : list string) (r : Response) : Response :=
  {| r_message := r_message r; r_service_info := r_service_info r;
     r_code_examples := r_code_examples r; r_troubleshooting := r_troubleshooting r;
     r_practice_question := r_practice_question r; r_session_id := r_session_id r;
     r_follow_up_suggestions := l |}.

(** The mutable state of the [chatbot] singleton. *)
Record App := {
  conversations : gmap string Context;
  generated_questions : gmap string (list QuestionData)
}.

Definition fresh_app : App :=
  {| conversations := ∅; generated_questions := ∅ |}.

(** The frame of one [process_message] call: the singleton's state and the
    locals that outlive the [try] statement.  [detected_service] and
    [detected_topic] are [None] while the name is unbound and [Some v] once
    an assignment has bound it to [v]. *)
Record Frame := {
  f_app : App;
  f_message : string;
  f_response : Response;
  f_detected_service : option (option string);
  f_detected_topic : option (option string)
}.

(** How control leaves the body of the [try]. *)
Inductive TryExit :=
| Returned (fr : Frame)            (** a [return response] inside the body *)
| Completed (fr : Frame)           (** the body ran to its end *)
| Faulted (e : PyExn) (fr : Frame) (** an exception, with the frame it left *).

Definition greeting_words : list string :=
  ["hello"; "hi"; "hey"; "namaste"; "aur bhai"].

Definition practice_words : list string :=
  ["practice"; "quiz"; "question"; "test"].

Definition greeting_message : string :=
"# **Namaste yaar! 🙏 AWS Expert Assistant**

AWS sikhne aur troubleshoot karne ke liye ready hun!

## **Main kya kar sakta hun:**

• **Service Explanations** - EC2, S3, Lambda, IAM, VPC, RDS, CloudWatch
• **Step-by-Step Guides** - Console, CLI, aur SDK sab methods
• **Troubleshooting Help** - Problems solve karne mein madad  
• **Practice Questions** - Dynamic AI-generated quiz
• **Screenshot Analysis** - AWS console ki images dekh kar help
• **Follow-up Support** - Detailed discussions

## **Popular Services:**
1. **EC2** - Virtual servers aur compute
2. **S3** - Object storage aur static hosting  
3. **Lambda** - Serverless functions
4. **IAM** - Users aur permissions

Kya sikhna chahte ho today? 🚀".

Definition services_menu : string :=
"# **AWS Services Available**

Main tumhe ye sab services mein help kar sakta hun:

## **Compute Services:**
• **EC2** - Virtual servers aur instances
• **Lambda** - Serverless functions

## **Storage Services:**  
• **S3** - Object storage aur static hosting

## **Database Services:**
• **RDS** - Managed relational databases

## **Networking:**
• **VPC** - Virtual private cloud

## **Security:**
• **IAM** - Identity and access management

## **Monitoring:**
• **CloudWatch** - Logs aur metrics

**Kya specific service ke baare mein jaanna hai?** 
Format: " +:+ quoted "S3 console mein kaise use kare" +:+ " ya " +:+ quoted "EC2 troubleshoot karo" +:+ " 🤔".

Definition apology_message : string :=
"**Oops! Technical Issue 😅**

Kuch gadbad ho gayi yaar! Possible solutions:

1. **Phir se try karo** - Message resend kar do
2. **Simple language** - Basic English ya Hindi mein poocho  
3. **Specific question** - Exact service name mention karo

**Example:** " +:+ quoted "S3 bucket kaise banate hain console mein?" +:+ "

Main phir ready hun! 🚀".

(** Frame updates *)
Definition with_response (f : Response -> Response) (fr : Frame) : Frame :=
  {| f_app := f_app fr; f_message := f_message fr; f_response := f (f_response fr);
     f_detected_service := f_detected_service fr;
     f_detected_topic := f_detected_topic fr |}.

Definition with_app (app : App) (fr : Frame) : Frame :=
  {| f_app := app; f_message := f_message fr; f_response := f_response fr;
     f_detected_service := f_detected_service fr;
     f_detected_topic := f_detected_topic fr |}.

Definition bind_message (message : string) (fr : Frame) : Frame :=
  {| f_app := f_app fr; f_message := message; f_response := f_response fr;
     f_detected_service := f_detected_service fr;
     f_detected_topic := f_detected_topic fr |}.

Definition bind_detected_service (v : option string) (fr : Frame) : Frame :=
  {| f_app := f_app fr; f_message := f_message fr; f_response := f_response fr;
     f_detected_service := Some v; f_detected_topic := f_detected_topic fr |}.

Definition bind_detected_topic (v : option string) (fr : Frame) : Frame :=
  {| f_app := f_app fr; f_message := f_message fr; f_response := f_response fr;
     f_detected_service := f_detected_service fr; f_detected_topic := Some v |}.

(** [self.conversation_manager.store_context(session_id, user, bot, service,
    topic)] on the frame's state. *)
Definition stored (w : World) (session_id user_message bot_response : string)
    (service topic : option string) (fr : Frame) : Frame :=
  with_app {| conversations :=
                store_context (conversations (f_app fr)) session_id user_message
                              bot_response service topic (now_isoformat w);
              generated_questions := generated_questions (f_app fr) |} fr.

Definition with_cache (cache : gmap string (list QuestionData)) (fr : Frame) : Frame :=
  with_app {| conversations := conversations (f_app fr);
              generated_questions := cache |} fr.

(** Reading a local: an unbound name raises. *)
Definition read_local {A} (var : string) (slot : option A) : Exc A :=
  match slot with
  | Some v => Ok v
  | None => Raise (UnboundLocalError var)
  end.

(** [a != b] on [Optional[str]] *)
Definition differs (a b : option string) : bool :=
  if decide (a = b) then false else true.

(** The practice branch's service: [self.detect_service(message) or
    context.get('current_service', 'general')].  The context always has the
    key, so the lookup yields the stored value. *)
Definition practice_service `{CaseOps} (message : string) (context : Context)
  : option string :=
  py_or (detect_service message)
        (dict_get (Some (current_service context)) (Some "general")).

Definition practice_difficulty `{CaseOps} (message : string) : string :=
  if str_in "advanced" (str_lower message) then "advanced"
  else if str_in "intermediate" (str_lower message) then "intermediate"
  else "beginner".

(** The arm of the practice branch for a service other than ['general']. *)
Definition practice_targeted `{CaseOps} (w : World) (session_id : string)
    (detected_service : option string) (difficulty : string)
    (topic : option string) (fr : Frame) : TryExit :=
  match generate_question w (generated_questions (f_app fr))
                          detected_service difficulty topic with
  | Raise e => Faulted e fr
  | Ok (question, cache) =>
      let fr := with_response (set_practice_question question) (with_cache cache fr) in
      match upper_of detected_service with
      | Raise e => Faulted e fr
      | Ok upper =>
          let text := "**" +:+ upper +:+ " Practice Question** (" +:+ difficulty
                      +:+ " level) 🤔" in
          let fr := with_response (set_message text) fr in
          Returned (stored w session_id (f_message fr) text None None fr)
      end
  end.

(** The arm of the practice branch for ['general']: a random service. *)
Definition practice_random `{CaseOps} (w : World) (session_id : string)
    (difficulty : string) (fr : Frame) : TryExit :=
  match random_choice w service_ids with
  | Raise e => Faulted e fr
  | Ok random_service =>
      match generate_question w (generated_questions (f_app fr))
                              (Some random_service) difficulty None with
      | Raise e => Faulted e fr
      | Ok (question, cache) =>
          let fr := with_response (set_practice_question question) (with_cache cache fr) in
          let text := "**Random AWS Practice Question** (" +:+ difficulty
                      +:+ " level) 🤔" in
          let fr := with_response (set_message text) fr in
          Returned (stored w session_id (f_message fr) text None None fr)
      end
  end.

Definition practice_branch `{CaseOps} (w : World) (context : Context)
    (session_id : string) (fr : Frame) : TryExit :=
  let message := f_message fr in
  let difficulty := practice_difficulty message in
  let detected_service := practice_service message context in
  let fr := bind_detected_service detected_service fr in
  let topic :=
    if differs detected_service (Some "general")
    then detect_topic message detected_service
    else None in
  if differs detected_service (Some "general")
  then practice_targeted w session_id detected_service difficulty topic fr
  else practice_random w session_id difficulty fr.

(** [[f"{detected_service.upper()} {topic} ke baare mein batao" for topic in
    subtopics[:3]]] *)
Definition suggestions `{CaseOps} (detected_service : string)
    (subtopics : list string) : list string :=
  map (fun topic => str_upper detected_service +:+ " " +:+ topic +:+ " ke baare mein batao")
      (take 3 subtopics).

(** The rest of the [try] body, from the detection step on. *)
Definition text_branch `{CaseOps} (w : World) (context : Context)
    (session_id : string) (image_data : option string) (fr : Frame) : TryExit :=
  let message := f_message fr in
  let detected_service := detect_service message in
  let detected_topic :=
    if truthy detected_service then detect_topic message detected_service else None in
  let access_method := detect_access_method message in
  let follow_up := is_follow_up message context in
  let rewrite := follow_up && truthy (current_service context) in
  let detected_service :=
    if rewrite then py_or detected_service (current_service context)
    else detected_service in
  let message :=
    if rewrite
    then "Follow-up about " +:+ py_str (current_service context) +:+ ": " +:+ message
    else message in
  let fr := bind_message message
              (bind_detected_topic detected_topic
                 (bind_detected_service detected_service fr)) in
  if truthy image_data then
    let text := analyze_screenshot w (py_str image_data) message context in
    let fr := with_response (set_message text) fr in
    Returned (stored w session_id message text None None fr)
  else
    let answered : Exc Frame :=
      if gemini_available w then
        let enhanced_prompt := create_enhanced_prompt w message context detected_service in
        text ← (m ← model w; generate_content m enhanced_prompt);
        let fr := with_response (set_message text) fr in
        mret (if truthy detected_service
              then with_response
                     (set_service_info (assoc (py_str detected_service) AWS_SERVICES)) fr
              else fr)
      else
        mret (if truthy detected_service then
                with_response
                  (set_service_info (assoc (py_str detected_service) AWS_SERVICES))
                  (with_response
                     (set_message (format_service_info (py_str detected_service)
                                                       access_method detected_topic))
                     fr)
              else with_response (set_message services_menu) fr) in
    match answered with
    | Raise e => Faulted e fr
    | Ok fr =>
        if truthy detected_service then
          let subtopics :=
            match assoc (py_str detected_service) AWS_SERVICES with
            | Some service_info => svc_subtopics service_info
            | None => []
            end in
          Completed (with_response
                       (set_follow_up_suggestions
                          (suggestions (py_str detected_service) subtopics)) fr)
        else Completed fr
    end.

(** The body of the [try] statement of [process_message]. *)
Definition try_body `{CaseOps} (w : World) (context : Context)
    (session_id : string) (image_data : option string) (fr : Frame) : TryExit :=
  let message := f_message fr in
  if any_in greeting_words (str_lower message) then
    let fr := with_response (set_message greeting_message) fr in
    Returned (stored w session_id message greeting_message None None fr)
  else if any_in practice_words (str_lower message) then
    practice_branch w context session_id fr
  else
    text_branch w context session_id image_data fr.

(** The statement after the [try]: the closing [store_context], whose
    arguments are read left to right. *)
Definition closing_store (w : World) (session_id : string) (fr : Frame)
  : Exc Response * App :=
  match
    detected_service ← read_local "detected_service" (f_detected_service fr);
    detected_topic ← read_local "detected_topic" (f_detected_topic fr);
    mret (stored w session_id (f_message fr) (r_message (f_response fr))
                 detected_service detected_topic fr)
  with
  | Ok fr => (Ok (f_response fr), f_app fr)
  | Raise e => (Raise e, f_app fr)
  end.

(** [process_message]: the reply (or the exception that escapes the method)
    and the singleton's state afterwards. *)
Definition process_message `{CaseOps} (w : World) (app : App) (message : string)
    (image_data session_id : option string) : Exc Response * App :=
  let session_id :=
    if negb (truthy session_id) then get_session_id w else py_str session_id in
  let context := get_context (conversations app) session_id in
  let response := {|
    r_message := ""; r_service_info := None; r_code_examples := None;
    r_troubleshooting := None; r_practice_question := None;
    r_session_id := session_id; r_follow_up_suggestions := [] |} in
  let fr := {| f_app := app; f_message := message; f_response := response;
               f_detected_service := None; f_detected_topic := None |} in
  match try_body w context session_id image_data fr with
  | Returned fr => (Ok (f_response fr), f_app fr)
  | Completed fr => closing_store w session_id fr
  | Faulted _ fr =>
      (* [except Exception]: the apology replaces the message *)
      closing_store w session_id (with_response (set_message apology_message) fr)
  end.

(* ===================================================================== *)
(** ** HTTP views *)
(* ===================================================================== *)

(** The JSON body of [POST /api/chat]; a field is [None] when the key is
    absent. *)
Record ChatRequest := {
  req_message : option string;
  req_image : option string;
  req_session_id : option string
}.

Inductive Body :=
| ChatReply (response : Response)
| ErrorReply (error : string).

Record HttpResponse := {
  status : nat;
  body : Body
}.

Definition chat `{CaseOps} (w : World) (app : App) (data : ChatRequest)
  : HttpResponse * App :=
  let message := dict_get (req_message data) "" in
  let image_data := req_image data in
  let session_id := req_session_id data in
  if negb (truthy (Some message)) && negb (truthy image_data) then
    ({| status := 400; body := ErrorReply "Message ya image toh bhejo yaar!" |}, app)
  else
    match process_message w app message image_data session_id with
    | (Ok response, app) => ({| status := 200; body := ChatReply response |}, app)
    | (Raise _, app) =>
        ({| status := 500;
            body := ErrorReply "Server mein problem hai yaar! Phir se try karo." |}, app)
    end.

(** A view function run by the framework: a view that returns gives its
    status, a view that raises is answered with 500. *)
Definition dispatch {A} (view : Exc A) : nat * option A :=
  match view with
  | Ok payload => (200, Some payload)
  | Raise _ => (500, None)
  end.

(** The objects the module's global names are bound to, as far as the views
    look attributes up on them. *)
Inductive PyObject :=
| PyFunction (name : string)
| PyDict (keys : list string).

(** [obj.keys()] *)
Definition keys_of (obj : PyObject) : Exc (list string) :=
  match obj with
  | PyDict keys => Ok keys
  | PyFunction _ => Raise (AttributeError "function" "keys")
  end.

(** The global [get_practice_question]: the view function of
    [POST /api/practice] ([app.route] hands the function back unchanged). *)
Definition get_practice_question_global : PyObject :=
  PyFunction "get_practice_question".

Record Config := {
  gemini_configured : bool;
  services_count : nat;
  question_categories : list string
}.

(** [get_config]: the dict literal is evaluated entry by entry before
    [jsonify] sees it. *)
Definition get_config (w : World) : Exc Config :=
  let configured := gemini_available w in
  let count := length AWS_SERVICES in
  categories ← keys_of get_practice_question_global;
  mret {| gemini_configured := configured; services_count := count;
          question_categories := categories |}.

(* ===================================================================== *)
(** ** A concrete world for the scenarios *)
(* ===================================================================== *)

(** No key in the environment: generation is disabled, and the service is
    never reached. *)
Definition offline : World := {|
  GEMINI_API_KEY := None;
  gemini_service := {|
    generate_content := fun _ => Raise (ExternalFault "unreachable");
    generate_content_image := fun _ _ => Raise (ExternalFault "unreachable") |};
  now_isoformat := "2025-01-01T00:00:00";
  get_session_id := "0a1b2c3d";
  random_draw := 0;
  json_loads := fun _ => Raise (ExternalFault "JSONDecodeError");
  json_dumps := fun _ => "[]";
  open_image := fun _ => Raise (ExternalFault "decode")
|}.

Definition quiz_request : ChatRequest :=
  {| req_message := Some "quiz"; req_image := None; req_session_id := None |}.

(** The state after one turn about EC2 in the world [offline]: the default
    session has one exchange and the sticky service ec2. *)
Definition sticky_app : App :=
  snd (@process_message ascii_case offline fresh_app
         "ec2 instance kaise launch kare console mein" None None).

(** A world whose key is set but whose service fails every call. *)
Definition failing_service : World := {|
  GEMINI_API_KEY := Some "key";
  gemini_service := {|
    generate_content := fun _ => Raise (ExternalFault "timeout");
    generate_content_image := fun _ _ => Raise (ExternalFault "timeout") |};
  now_isoformat := "2025-01-01T00:00:00";
  get_session_id := "0a1b2c3d";
  random_draw := 0;
  json_loads := fun _ => Raise (ExternalFault "JSONDecodeError");
  json_dumps := fun _ => "[]";
  open_image := fun _ => Raise (ExternalFault "decode")
|}.


(** A recorded call of [store_context] on some session. *)
Record StoreCall := {
  c_user : string;
  c_bot : string;
  c_service : option string;
  c_topic : option string;
  c_timestamp : string
}.

(** The calls of [calls], in order, on the session [session_id]. *)
Definition store_all (conversations : gmap string Context) (session_id : string)
    (calls : list StoreCall) : gmap string Context :=
  foldl (fun conversations c =>
           store_context conversations session_id (c_user c) (c_bot c)
                         (c_service c) (c_topic c) (c_timestamp c))
        conversations calls.

(** What one call of [store_context] with the entry [e] makes of the
    session's record [c]. *)
Definition updated (c : Context) (e : Exchange) : Context :=
  let c := append_history e c in
  let c := if truthy (h_service e) then set_current_service (h_service e) c else c in
  if truthy (h_topic e) then set_current_topic (h_topic e) c else c.

(** The [PracticeQuestion] invariant: four options, and a correct index
    among them. *)
Definition well_formed (q : PracticeQuestion) : Prop :=
  (0 <= pq_correct q <= 3)%Z /\ length (pq_options q) = 4.

(* ===================================================================== *)
(** ** The remaining views *)
(* ===================================================================== *)

(** One element of the list [get_services] returns. *)
Record ServiceListing := {
  sl_id : string;
  sl_name : string;
  sl_description : string;
  sl_subtopics : list string
}.

(** [GET /api/services] *)
Definition get_services : list ServiceListing :=
  map (fun item : string * ServiceEntry =>
         let (key, service) := item in
         {| sl_id := key; sl_name := svc_name service;
            sl_description := svc_description service;
            sl_subtopics := svc_subtopics service |})
      AWS_SERVICES.

(** The JSON body of [POST /api/practice].  A field is [None] when the key
    is absent, [Some None] when it is [null] and [Some (Some s)] when it is
    the string [s]. *)
Record PracticeRequest := {
  pr_difficulty : option (option string);
  pr_service : option (option string);
  pr_topic : option (option string)
}.

Inductive PracticeBody :=
| QuestionReply (question : QuestionData)
| PracticeError (error : string).

(** [v in seq] for a list of strings *)
Definition py_in (v : option string) (seq : list string) : bool :=
  match v with
  | Some s => existsb (String.eqb s) seq
  | None => false
  end.

(** [v in AWS_SERVICES] *)
Definition in_services (v : option string) : bool :=
  match v with
  | Some s => match assoc s AWS_SERVICES with Some _ => true | None => false end
  | None => false
  end.

(** [POST /api/practice]: the status, the body and the singleton's state
    afterwards.  The default of [data.get('service', ...)] is drawn before
    the lookup. *)
Definition get_practice_question `{CaseOps} (w : World) (app : App)
    (data : PracticeRequest) : (nat * PracticeBody) * App :=
  let attempt : Exc ((nat * PracticeBody) * App) :=
    let difficulty := dict_get (pr_difficulty data) (Some "beginner") in
    drawn ← random_choice w service_ids;
    let service := dict_get (pr_service data) (Some drawn) in
    let topic := dict_get (pr_topic data) None in
    if negb (py_in difficulty ["beginner"; "intermediate"; "advanced"]) then
      mret ((400, PracticeError "Invalid difficulty level yaar!"), app)
    else if negb (in_services service) then
      mret ((400, PracticeError (py_str service +:+ " supported nahi hai yaar!")), app)
    else
      generated ← generate_question w (generated_questions app) service
                                    (py_str difficulty) topic;
      mret ((200, QuestionReply (fst generated)),
            {| conversations := conversations app;
               generated_questions := snd generated |}) in
  match attempt with
  | Ok answer => answer
  | Raise _ => ((500, PracticeError "Question generate nahi kar paya!"), app)
  end.



(** [DELETE /api/conversation/<session_id>] *)
Definition clear_conversation (app : App) (session_id : string)
  : (nat * string) * App :=
  ((200, "Conversation cleared successfully!"),
   {| conversations := clear (conversations app) session_id;
      generated_questions := generated_questions app |}).

(* ===================================================================== *)
(** ** States the process can reach, and what holds in them *)
(* ===================================================================== *)

(** The states reached from start-up by requests to the views that change
    state, each in a world of its own. *)
Inductive reachable `{CaseOps} : App -> Prop :=
| reach_start : reachable fresh_app
| reach_chat w app data :
    reachable app -> reachable (snd (chat w app data))
| reach_practice w app data :
    reachable app -> reachable (snd (get_practice_question w app data))
| reach_clear app session_id :
    reachable app -> reachable (snd (clear_conversation app session_id)).

(** [None], or a key of the knowledge base. *)
Definition known_service (v : option string) : Prop :=
  match v with
  | None => True
  | Some s => is_Some (assoc s AWS_SERVICES)
  end.

(** Every session's sticky service is [None] or a key of the knowledge
    base. *)
Definition sticky_known (conversations : gmap string Context) : Prop :=
  forall session_id c,
    conversations !! session_id = Some c -> known_service (current_service c).

(** The context with only its last two exchanges. *)
Definition recent_only (c : Context) : Context :=
  {| history := drop (length (history c) - 2) (history c);
     current_service := current_service c;
     current_topic := current_topic c;
     follow_up_count := follow_up_count c |}.

(** The session id [process_message] works with. *)
Definition resolved_session (w : World) (session_id : option string) : string :=
  if negb (truthy session_id) then get_session_id w else py_str session_id.

(** A world whose key is the empty string: [GEMINI_API_KEY is not None]
    holds, but no [model] was created. *)
Definition blank_key : World := {|
  GEMINI_API_KEY := Some "";
  gemini_service := {|
    generate_content := fun _ => Ok "never reached";
    generate_content_image := fun _ _ => Ok "never reached" |};
  now_isoformat := "2025-01-01T00:00:00";
  get_session_id := "0a1b2c3d";
  random_draw := 3;
  json_loads := fun _ => Ok JNull;
  json_dumps := fun _ => "[]";
  open_image := fun _ => Ok "png"
|}.

(** A world whose service answers every prompt with a JSON object. *)
Definition answering : World := {|
  GEMINI_API_KEY := Some "key";
  gemini_service := {|
    generate_content := fun _ => Ok "{}";
    generate_content_image := fun _ _ => Ok "**Service Detected:** S3" |};
  now_isoformat := "2025-01-01T00:00:00";
  get_session_id := "0a1b2c3d";
  random_draw := 5;
  json_loads := fun _ => Ok (JObject []);
  json_dumps := fun _ => "[]";
  open_image := fun _ => Ok "png"
|}.

(* ===================================================================== *)
(** * Properties *)
(* ===================================================================== *)

(** ** The session store *)

Section store.
Implicit Types (conversations : gmap string Context) (c : Context).
Implicit Types (service topic : option string).

Lemma store_context_lookup conversations sid u b service topic ts :
  store_context conversations sid u b service topic ts !! sid =
  Some (updated (get_context conversations sid)
                {| h_user := u; h_bot := b; h_service := service;
                   h_topic := topic; h_timestamp := ts |}).
Proof.
  unfold store_context, get_context, updated; simpl.
  destruct (conversations !! sid) as [c|] eqn:Hc;
    destruct (truthy service), (truthy topic); simpl;
    rewrite ?lookup_alter_eq, ?lookup_insert_eq, ?Hc; reflexivity.
Qed.

Lemma store_context_lookup_ne conversations sid sid' u b service topic ts :
  sid ≠ sid' ->
  store_context conversations sid u b service topic ts !! sid' = conversations !! sid'.
Proof.
  intros Hne. unfold store_context.
  destruct (conversations !! sid), (truthy service), (truthy topic);
    rewrite ?lookup_alter_ne, ?lookup_insert_ne by done; reflexivity.
Qed.

Lemma get_context_store conversations sid u b service topic ts :
  get_context (store_context conversations sid u b service topic ts) sid =
  updated (get_context conversations sid)
          {| h_user := u; h_bot := b; h_service := service;
             h_topic := topic; h_timestamp := ts |}.
Proof.
  unfold get_context at 1. now rewrite store_context_lookup.
Qed.

Lemma updated_history c e : history (updated c e) = history c ++ [e].
Proof. unfold updated. destruct (truthy (h_service e)), (truthy (h_topic e)); reflexivity. Qed.

Lemma updated_current_service c e :
  current_service (updated c e) =
  if truthy (h_service e) then h_service e else current_service c.
Proof. unfold updated. destruct (truthy (h_service e)), (truthy (h_topic e)); reflexivity. Qed.

Lemma updated_current_topic c e :
  current_topic (updated c e) =
  if truthy (h_topic e) then h_topic e else current_topic c.
Proof. unfold updated. destruct (truthy (h_service e)), (truthy (h_topic e)); reflexivity. Qed.

Lemma store_all_history_length conversations sid calls :
  length (history (get_context (store_all conversations sid calls) sid)) =
  length (history (get_context conversations sid)) + length calls.
Proof.
  revert conversations.
  induction calls as [|call calls IH]; intros conversations; simpl.
  - lia.
  - unfold store_all in *. simpl. rewrite IH, get_context_store, updated_history.
    rewrite length_app. simpl. lia.
Qed.

(** C4.  [store_context] is monotonic and sticky.  From a session id that
    the store does not hold yet, [N] calls leave a history of exactly [N]
    entries.  And for any call: the current service (topic) afterwards
    differs from the one before only if the call supplied a service
    (topic) other than [None]; a call with [service = None] (with
    [topic = None]) leaves it as it was. *)
Theorem store_context_monotonic_sticky conversations sid calls :
  conversations !! sid = None ->
  length (history (get_context (store_all conversations sid calls) sid)) = length calls
  /\ (forall convs u b service topic ts,
        let before := get_context convs sid in
        let after := get_context (store_context convs sid u b service topic ts) sid in
        (current_service after ≠ current_service before -> service ≠ None)
        /\ (current_topic after ≠ current_topic before -> topic ≠ None)
        /\ (service = None -> current_service after = current_service before)
        /\ (topic = None -> current_topic after = current_topic before)).
Proof.
  intros Hfresh. split.
  - rewrite store_all_history_length. unfold get_context. rewrite Hfresh. reflexivity.
  - intros convs u b service topic ts before after. subst before after.
    rewrite get_context_store, updated_current_service, updated_current_topic. simpl.
    repeat split.
    + intros Hchg ->. now apply Hchg.
    + intros Hchg ->. now apply Hchg.
    + now intros ->.
    + now intros ->.
Qed.

Lemma store_context_monotonic_sticky_witness :
  length (history (get_context
     (store_all ∅ "s1"
        [ {| c_user := "s3 kya hai"; c_bot := "..."; c_service := Some "s3";
             c_topic := None; c_timestamp := "t1" |};
          {| c_user := "aur batao"; c_bot := "..."; c_service := None;
             c_topic := None; c_timestamp := "t2" |} ]) "s1")) = 2.
Proof.
  refine (proj1 (store_context_monotonic_sticky ∅ "s1" _ _)).
  apply lookup_empty.
Defined.

(** C9.  The stickiness guard is a truthiness test: a call whose service is
    the empty string leaves the current service as it was, as does any
    falsy service ([None] or ['']); likewise for the topic.  So [''] never
    overwrites or clears a sticky field. *)
Theorem store_context_falsy_keeps_sticky conversations sid u b ts :
  (forall topic,
      current_service (get_context (store_context conversations sid u b (Some "") topic ts) sid)
      = current_service (get_context conversations sid))
  /\ (forall service,
      current_topic (get_context (store_context conversations sid u b service (Some "") ts) sid)
      = current_topic (get_context conversations sid))
  /\ (forall service topic, truthy service = false ->
      current_service (get_context (store_context conversations sid u b service topic ts) sid)
      = current_service (get_context conversations sid))
  /\ (forall service topic, truthy topic = false ->
      current_topic (get_context (store_context conversations sid u b service topic ts) sid)
      = current_topic (get_context conversations sid)).
Proof.
  repeat split; intros; rewrite get_context_store;
    rewrite ?updated_current_service, ?updated_current_topic; simpl;
    try match goal with H : truthy _ = false |- _ => rewrite H end; reflexivity.
Qed.

(** C6.  With an empty history [is_follow_up] is false, whatever the text. *)
Theorem is_follow_up_empty_history `{CaseOps} (message : string) (context : Context) :
  history context = [] -> is_follow_up message context = false.
Proof.
  intros Hempty. unfold is_follow_up. rewrite Hempty. simpl.
  apply andb_false_r.
Qed.

End store.

Lemma is_follow_up_empty_history_witness :
  @is_follow_up ascii_case "aur kya batao" empty_context = false.
Proof.
  apply (@is_follow_up_empty_history ascii_case "aur kya batao" empty_context).
  reflexivity.
Defined.


(** ** The detector *)

Section detector.
Context `{CaseOps}.
Implicit Types (scores : list (string * nat)) (table : list (string * list string)).

(** [max_from] picks the first maximum of [best :: scores]. *)
Lemma max_from_first_max best scores :
  exists pre post,
    best :: scores = pre ++ max_from best scores :: post
    /\ Forall (fun e => snd e < snd (max_from best scores)) pre
    /\ Forall (fun e => snd e <= snd (max_from best scores)) post.
Proof.
  revert best. induction scores as [|e rest IH]; intros best; simpl.
  - exists [], []. repeat split; constructor.
  - destruct (snd best <? snd e) eqn:Hlt.
    + apply Nat.ltb_lt in Hlt.
      destruct (IH e) as (pre & post & Heq & Hpre & Hpost).
      remember (max_from e rest) as r eqn:Hr. clear Hr.
      assert (snd e <= snd r) as Hle.
      { destruct pre as [|p pre']; simpl in Heq; injection Heq as Hhd _.
        - subst r. lia.
        - subst p. inversion Hpre; subst. lia. }
      exists (best :: pre), post. split; [simpl; now rewrite Heq|].
      split; [|assumption]. constructor; [lia|assumption].
    + apply Nat.ltb_ge in Hlt.
      destruct (IH best) as (pre & post & Heq & Hpre & Hpost).
      remember (max_from best rest) as r eqn:Hr. clear Hr.
      destruct pre as [|p pre']; simpl in Heq; injection Heq as Hhd Htl.
      * subst r post. exists [], (e :: rest). split; [reflexivity|].
        split; constructor; [lia|assumption].
      * subst p. inversion Hpre as [|? ? Hbest Hpre']; subst.
        exists (best :: e :: pre'), post. split; [reflexivity|].
        split; [|assumption].
        constructor; [assumption|]. constructor; [lia|assumption].
Qed.

Lemma build_scores_split msg table pre' s v post' :
  build_scores msg table = pre' ++ (s, v) :: post' ->
  exists pre kws post,
    table = pre ++ (s, kws) :: post
    /\ v = keyword_score msg kws /\ 0 < v
    /\ build_scores msg pre = pre' /\ build_scores msg post = post'.
Proof.
  revert pre'. induction table as [|[s0 kws0] table IH]; intros pre' Heq; simpl in Heq.
  - destruct pre'; discriminate.
  - destruct (0 <? keyword_score msg kws0) eqn:Hpos.
    + destruct pre' as [|p pre'']; simpl in Heq.
      * inversion Heq; subst. apply Nat.ltb_lt in Hpos.
        exists [], kws0, table. repeat split; auto.
      * inversion Heq as [[Hhd Htl]].
        destruct (IH _ Htl) as (pre & kws & post & -> & -> & Hv & Hpre & Hpost).
        exists ((s0, kws0) :: pre), kws, post. simpl. rewrite Hpos, Hpre.
        repeat split; auto.
    + destruct (IH _ Heq) as (pre & kws & post & -> & -> & Hv & Hpre & Hpost).
      exists ((s0, kws0) :: pre), kws, post. simpl. rewrite Hpos.
      repeat split; auto.
Qed.

(** An entry that [build_scores] dropped has score 0, so a bound on the kept
    entries is a bound on the table. *)
Lemma build_scores_bound (R : nat -> nat -> Prop) msg table v :
  R 0 v ->
  Forall (fun e => R (snd e) v) (build_scores msg table) ->
  Forall (fun e => R (keyword_score msg (snd e)) v) table.
Proof.
  intros H0. induction table as [|[s0 kws0] table IH]; simpl; intros Hall.
  - constructor.
  - destruct (0 <? keyword_score msg kws0) eqn:Hpos.
    + inversion Hall; subst. constructor; auto.
    + apply Nat.ltb_ge in Hpos. constructor; auto.
      simpl. replace (keyword_score msg kws0) with 0 by lia. exact H0.
Qed.

Lemma build_scores_nil msg table :
  build_scores msg table = [] <->
  forall s kws, (s, kws) ∈ table -> keyword_score msg kws = 0.
Proof.
  induction table as [|[s0 kws0] table IH]; simpl.
  - split; [|reflexivity]. intros _ s kws Hin. inversion Hin.
  - destruct (0 <? keyword_score msg kws0) eqn:Hpos.
    + apply Nat.ltb_lt in Hpos. split; [discriminate|].
      intros Hall. specialize (Hall s0 kws0 ltac:(left)). lia.
    + apply Nat.ltb_ge in Hpos. rewrite IH. split.
      * intros Hall s kws Hin. inversion Hin; subst; [lia|]. eauto.
      * intros Hall s kws Hin. apply (Hall s kws). now right.
Qed.

Lemma detect_service_first_max message s :
  detect_service message = Some s ->
  exists pre kws post,
    service_keywords = pre ++ (s, kws) :: post
    /\ 0 < keyword_score (str_lower message) kws
    /\ Forall (fun e => keyword_score (str_lower message) (snd e)
                        < keyword_score (str_lower message) kws) pre
    /\ Forall (fun e => keyword_score (str_lower message) (snd e)
                        <= keyword_score (str_lower message) kws) post.
Proof.
  unfold detect_service, max_by_score.
  set (msg := str_lower message). set (table := service_keywords). clearbody table.
  destruct (build_scores msg table) as [|first rest] eqn:Hscores; [discriminate|].
  intros [= <-].
  destruct (max_from_first_max first rest) as (pre' & post' & Heq & Hpre' & Hpost').
  destruct (max_from first rest) as [s v] eqn:Hmax. simpl in *.
  rewrite Heq in Hscores.
  destruct (build_scores_split _ _ _ _ _ _ Hscores)
    as (pre & kws & post & -> & -> & Hv & <- & <-).
  exists pre, kws, post. repeat split; auto.
  - apply (build_scores_bound lt); assumption.
  - apply (build_scores_bound le); [lia|assumption].
Qed.

(** C5.  [detect_service] returns [None] or one of the seven known service
    ids; it returns [None] exactly when every service's keyword score is
    zero; otherwise it returns a service whose score is positive, at least
    that of every service of the table, and strictly above that of every
    service before it in the table (the first maximum in table order).
    The result depends on the text alone: equal texts give equal results. *)
Theorem detect_service_spec (message : string) :
  let score := keyword_score (str_lower message) in
  (detect_service message = None
   \/ exists s, detect_service message = Some s
        /\ s ∈ ["ec2"; "s3"; "lambda"; "iam"; "vpc"; "rds"; "cloudwatch"])
  /\ (detect_service message = None
      <-> forall s kws, (s, kws) ∈ service_keywords -> score kws = 0)
  /\ (forall s, detect_service message = Some s ->
        exists pre kws post,
          service_keywords = pre ++ (s, kws) :: post
          /\ 0 < score kws
          /\ Forall (fun e => score (snd e) < score kws) pre
          /\ Forall (fun e => score (snd e) <= score kws) post)
  /\ (forall message', message' = message ->
        detect_service message' = detect_service message).
Proof.
  intros score. subst score. repeat split.
  - destruct (detect_service message) as [s|] eqn:Hdet; [right|now left].
    exists s. split; [reflexivity|].
    destruct (detect_service_first_max _ _ Hdet) as (pre & kws & post & Heq & _).
    change ["ec2"; "s3"; "lambda"; "iam"; "vpc"; "rds"; "cloudwatch"]
      with (map fst service_keywords).
    rewrite Heq, map_app. apply elem_of_app. right. simpl. left.
  - unfold detect_service, max_by_score.
    destruct (build_scores _ _) eqn:Hscores; [|discriminate].
    intros _. now apply build_scores_nil.
  - intros Hzero. apply build_scores_nil in Hzero.
    unfold detect_service. now rewrite Hzero.
  - apply detect_service_first_max.
  - now intros message' ->.
Qed.

End detector.

(** ** The practice-question fallback *)

Section fallback.
Context `{CaseOps}.

Lemma fallback_questions_well_formed key q :
  assoc key fallback_questions = Some q -> well_formed q.
Proof.
  unfold fallback_questions. simpl.
  repeat (destruct (String.eqb key _); [intros [= <-]; split; simpl; lia|]).
  discriminate.
Qed.

Lemma get_fallback_question_returns (service difficulty : string) :
  exists q, get_fallback_question (Some service) difficulty = Ok q.
Proof. unfold get_fallback_question. simpl. eauto. Qed.

(** C8.  [get_fallback_question("s3", "beginner")] returns a question with
    [correct = 0] and exactly four options.  For every service id and
    difficulty the function returns a question, and every question it
    returns has exactly four options and a correct index in [0, 3]. *)
Theorem get_fallback_question_shape :
  (exists q, get_fallback_question (Some "s3") "beginner" = Ok q
             /\ pq_correct q = 0%Z /\ length (pq_options q) = 4)
  /\ (forall service difficulty,
        exists q, get_fallback_question (Some service) difficulty = Ok q)
  /\ (forall service difficulty q,
        get_fallback_question service difficulty = Ok q ->
        (0 <= pq_correct q <= 3)%Z /\ length (pq_options q) = 4).
Proof.
  split; [|split].
  - eexists. split; [reflexivity|]. split; reflexivity.
  - apply get_fallback_question_returns.
  - intros [service|] difficulty q Hq; [|discriminate].
    change (Ok (dict_get
                  (assoc (service +:+ "_" +:+ difficulty) fallback_questions)
                  {| pq_question := str_upper service +:+
                       " ke baare mein ek question generate nahi kar paya yaar!";
                     pq_options := ["Try again"; "Different service";
                                    "Check connection"; "Contact support"];
                     pq_correct := 0;
                     pq_explanation := "Technical issue hai, phir se try karo.";
                     pq_service := service;
                     pq_difficulty := difficulty;
                     pq_topic := "error" |}) = Ok q) in Hq.
    remember (assoc (service +:+ "_" +:+ difficulty) fallback_questions)
      as hit eqn:Hkey in Hq.
    symmetry in Hkey. injection Hq as <-.
    destruct hit as [q|]; unfold dict_get.
    + exact (fallback_questions_well_formed _ _ Hkey).
    + split; simpl; lia.
Qed.

End fallback.

(** ** The configuration view *)

(** C1 (the code departs from it).  [get_config] looks [keys] up on the view
    function [get_practice_question]; a function has no such attribute, so
    the view raises for every request and the framework answers 500. *)
Theorem get_config_faults (w : World) :
  get_config w = Raise (AttributeError "function" "keys")
  /\ dispatch (get_config w) = (500, None).
Proof. split; reflexivity. Qed.

(** ** Scenarios on concrete messages *)

Section scenarios.
#[local] Existing Instance ascii_case.

(** C7.  For the message "ec2 instance kaise launch kare console mein" the
    detected service is ec2 and the access method is console.  With
    generation disabled the reply of [process_message] is the formatted
    knowledge-base text; it contains the console instructions of EC2 and
    none of the CLI or SDK sections (neither their headings, nor the
    bullets of the all-methods layout, nor the CLI command or SDK call
    themselves). *)
Theorem ec2_console_scenario (w : World) (app : App) (session_id : option string) :
  GEMINI_API_KEY w = None ->
  let message := "ec2 instance kaise launch kare console mein" in
  let reply := format_service_info "ec2" (Some "console") (detect_topic message (Some "ec2")) in
  detect_service message = Some "ec2"
  /\ detect_access_method message = Some "console"
  /\ (exists response,
        fst (process_message w app message None session_id) = Ok response
        /\ r_message response = reply)
  /\ (exists ec2,
        assoc "ec2" AWS_SERVICES = Some ec2
        /\ str_in (svc_console ec2) reply = true
        /\ str_in (svc_cli ec2) reply = false
        /\ str_in (svc_sdk ec2) reply = false)
  /\ str_in "**Console Steps:**" reply = true
  /\ str_in "**CLI Command:**" reply = false
  /\ str_in "**SDK Code:**" reply = false
  /\ str_in "• **CLI**" reply = false
  /\ str_in "• **SDK**" reply = false.
Proof.
  intros Hkey message reply. subst message reply.
  destruct w as [key svc now sid draw loads dumps opens]. simpl in Hkey. subst key.
  split; [vm_compute; reflexivity|].
  split; [vm_compute; reflexivity|].
  split.
  { eexists. split; [vm_compute; reflexivity|]. vm_compute. reflexivity. }
  split.
  { eexists. split; [reflexivity|]. repeat split; vm_compute; reflexivity. }
  repeat split; vm_compute; reflexivity.
Qed.

Lemma ec2_console_scenario_witness :
  detect_service "ec2 instance kaise launch kare console mein" = Some "ec2".
Proof.
  refine (proj1 (ec2_console_scenario offline fresh_app None _)).
  reflexivity.
Defined.

(** C2 (the code departs from it).  A practice request on a fresh session
    with no service in the text: the sticky lookup yields [None], which is
    not the ['general'] that guards the random arm, so the targeted arm
    runs with the service [None]; question generation raises there, and the
    request ends in a 500 with nothing stored. *)
Theorem practice_fresh_session_misses_random_arm (w : World) :
  let session_id := get_session_id w in
  let context := get_context (conversations fresh_app) session_id in
  let fr := {| f_app := fresh_app; f_message := "quiz";
               f_response := {| r_message := ""; r_service_info := None;
                                r_code_examples := None; r_troubleshooting := None;
                                r_practice_question := None; r_session_id := session_id;
                                r_follow_up_suggestions := [] |};
               f_detected_service := None; f_detected_topic := None |} in
  detect_service "quiz" = None
  /\ current_service context = None
  /\ practice_service "quiz" context = None
  /\ practice_branch w context session_id fr
     = practice_targeted w session_id None "beginner" None (bind_detected_service None fr)
  /\ generate_question w (generated_questions fresh_app) None "beginner" None
     = Raise (AttributeError "NoneType" "upper")
  /\ chat w fresh_app quiz_request
     = ({| status := 500;
           body := ErrorReply "Server mein problem hai yaar! Phir se try karo." |},
        fresh_app).
Proof.
  destruct w as [key svc now sid draw loads dumps opens].
  destruct key as [[|c k]|]; repeat split; vm_compute; reflexivity.
Qed.

(** C3 (the code departs from it).  On the same request the fault raised by
    question generation is caught and the apology put in place, but the
    closing [store_context] then reads [detected_topic], which the practice
    branch never bound: [process_message] raises, nothing is stored, and
    the chat endpoint answers 500. *)
Theorem practice_fault_escapes (w : World) :
  let session_id := get_session_id w in
  (exists fr,
     try_body w (get_context (conversations fresh_app) session_id) session_id None
              {| f_app := fresh_app; f_message := "quiz";
                 f_response := {| r_message := ""; r_service_info := None;
                                  r_code_examples := None; r_troubleshooting := None;
                                  r_practice_question := None; r_session_id := session_id;
                                  r_follow_up_suggestions := [] |};
                 f_detected_service := None; f_detected_topic := None |}
     = Faulted (AttributeError "NoneType" "upper") fr
     /\ f_detected_service fr = Some None /\ f_detected_topic fr = None)
  /\ process_message w fresh_app "quiz" None None
     = (Raise (UnboundLocalError "detected_topic"), fresh_app)
  /\ status (fst (chat w fresh_app quiz_request)) = 500
  /\ conversations (snd (chat w fresh_app quiz_request)) !! session_id = None.
Proof.
  destruct w as [key svc now sid draw loads dumps opens].
  destruct key as [[|c k]|]; (split; [eexists; split; [vm_compute; reflexivity|split; reflexivity]|]);
    repeat split; vm_compute; reflexivity.
Qed.

End scenarios.

(** ** Follow-up turns *)

Section follow_up.
Context `{CaseOps}.

Lemma stored_history w sid u b service topic fr :
  history (get_context (conversations (f_app (stored w sid u b service topic fr))) sid)
  = history (get_context (conversations (f_app fr)) sid)
    ++ [{| h_user := u; h_bot := b; h_service := service; h_topic := topic;
           h_timestamp := now_isoformat w |}].
Proof.
  unfold stored, with_app. cbn [f_app conversations].
  now rewrite get_context_store, updated_history.
Qed.

Lemma closing_store_bound w sid fr service topic :
  f_detected_service fr = Some service ->
  f_detected_topic fr = Some topic ->
  closing_store w sid fr
  = (Ok (f_response fr),
     f_app (stored w sid (f_message fr) (r_message (f_response fr)) service topic fr)).
Proof.
  intros Hs Ht. unfold closing_store. rewrite Hs, Ht. reflexivity.
Qed.

(** A turn that ends in the closing [store_context] with both locals
    bound, or in a [return], appends exactly one entry. *)
Ltac close_turn :=
  do 3 eexists;
  split; [first [reflexivity | erewrite closing_store_bound by reflexivity; reflexivity]|];
  rewrite stored_history; split; reflexivity.

(** C10, as amended.  A message that is neither a greeting nor a practice
    request, that meets the follow-up criteria, in a session with a sticky
    current service: [process_message] returns, and the history entry it
    appends records the text prefixed with "Follow-up about {service}: ",
    not the text the caller sent.  (A greeting or a practice request
    returns from its own branch before the follow-up step and is stored as
    sent.) *)
Theorem follow_up_turn_stores_rewritten_text (w : World) (app : App)
    (message : string) (image_data session_id : option string) :
  let sid := if negb (truthy session_id) then get_session_id w else py_str session_id in
  let context := get_context (conversations app) sid in
  any_in greeting_words (str_lower message) = false ->
  any_in practice_words (str_lower message) = false ->
  is_follow_up message context = true ->
  truthy (current_service context) = true ->
  exists response app' e,
    process_message w app message image_data session_id = (Ok response, app')
    /\ history (get_context (conversations app') sid) = history context ++ [e]
    /\ h_user e = "Follow-up about " +:+ py_str (current_service context) +:+ ": " +:+ message.
Proof.
  intros sid context Hgreet Hpractice Hfollow Hsticky.
  unfold process_message. fold sid. fold context.
  unfold try_body. cbn [f_message]. rewrite Hgreet, Hpractice.
  unfold text_branch. cbn [f_message]. rewrite Hfollow, Hsticky. cbn [andb].
  destruct (truthy image_data).
  - close_turn.
  - destruct (gemini_available w).
    + destruct (model w) as [m|e]; cbn [mbind Exc_bind mret Exc_ret];
        [destruct (generate_content m _) as [text|e]|];
        destruct (truthy (py_or (detect_service message) (current_service context)));
        close_turn.
    + cbn [mret Exc_ret].
      destruct (truthy (py_or (detect_service message) (current_service context)));
        close_turn.
Qed.

(** A fault of the generation call on the text path is absorbed: the
    apology is returned, the turn is stored, and the endpoint answers 200. *)
Lemma text_fault_is_absorbed (w : World) (app : App) (message : string)
    (session_id : option string) :
  let sid := if negb (truthy session_id) then get_session_id w else py_str session_id in
  let context := get_context (conversations app) sid in
  any_in greeting_words (str_lower message) = false ->
  any_in practice_words (str_lower message) = false ->
  gemini_available w = true ->
  (forall prompt, exists e, (m ← model w; generate_content m prompt) = Raise e) ->
  exists response app' e,
    process_message w app message None session_id = (Ok response, app')
    /\ r_message response = apology_message
    /\ history (get_context (conversations app') sid) = history context ++ [e]
    /\ h_bot e = apology_message
    /\ (truthy (Some message) = true ->
        status (fst (chat w app {| req_message := Some message; req_image := None;
                                   req_session_id := session_id |})) = 200).
Proof.
  intros sid context Hgreet Hpractice Hkey Hfail.
  assert (exists response app' e,
    process_message w app message None session_id = (Ok response, app')
    /\ r_message response = apology_message
    /\ history (get_context (conversations app') sid) = history context ++ [e]
    /\ h_bot e = apology_message) as (response & app' & e & Hpm & Hmsg & Hhist & Hbot).
  { unfold process_message. fold sid. fold context.
    unfold try_body. cbn [f_message]. rewrite Hgreet, Hpractice.
    unfold text_branch. cbn [f_message truthy]. rewrite Hkey.
    match goal with
    | |- context [mbind (M:=Exc) ?k (mbind (M:=Exc) ?g (model w))] =>
        destruct (Hfail (create_enhanced_prompt w
          (if is_follow_up message context && truthy (current_service context)
           then "Follow-up about " +:+ py_str (current_service context) +:+ ": " +:+ message
           else message) context
          (if is_follow_up message context && truthy (current_service context)
           then py_or (detect_service message) (current_service context)
           else detect_service message))) as [e He]
    end.
    cbn [mbind Exc_bind] in *. rewrite He. cbn [mbind Exc_bind].
    do 3 eexists.
    split; [erewrite closing_store_bound by reflexivity; reflexivity|].
    split; [reflexivity|]. rewrite stored_history. split; reflexivity. }
  exists response, app', e. repeat split; try assumption.
  intros Htext. unfold chat. cbn [req_message req_image req_session_id dict_get].
  rewrite Htext. cbn [negb andb]. rewrite Hpm. reflexivity.
Qed.

End follow_up.

Section follow_up_scenarios.
#[local] Existing Instance ascii_case.

(** C10 as stated fails.  In a session with one exchange and the sticky
    service ec2, "aur bhai" meets the follow-up criteria (it contains
    "aur") but is answered by the greeting branch, and "next question"
    meets them (it contains "next") but is answered by the practice
    branch; both are stored as sent, without the follow-up prefix. *)
Lemma follow_up_text_stored_as_sent :
  let sid := get_session_id offline in
  let context := get_context (conversations sticky_app) sid in
  let after message :=
    get_context (conversations (snd (process_message offline sticky_app message None None))) sid in
  current_service context = Some "ec2"
  /\ is_follow_up "aur bhai" context = true
  /\ h_user <$> last (history (after "aur bhai")) = Some "aur bhai"
  /\ is_follow_up "next question" context = true
  /\ h_user <$> last (history (after "next question")) = Some "next question".
Proof. repeat split; vm_compute; reflexivity. Qed.

Lemma follow_up_turn_stores_rewritten_text_witness :
  exists response app' e,
    process_message offline sticky_app "aur kya batao" None None = (Ok response, app')
    /\ history (get_context (conversations app') (get_session_id offline))
       = history (get_context (conversations sticky_app) (get_session_id offline)) ++ [e]
    /\ h_user e = "Follow-up about ec2: aur kya batao".
Proof.
  apply (follow_up_turn_stores_rewritten_text offline sticky_app "aur kya batao" None None);
    vm_compute; reflexivity.
Defined.

Lemma text_fault_is_absorbed_witness :
  exists response app' e,
    process_message failing_service fresh_app "s3 bucket kaise banate hain" None None
    = (Ok response, app')
    /\ r_message response = apology_message
    /\ history (get_context (conversations app') (get_session_id failing_service)) = [e]
    /\ h_bot e = apology_message
    /\ (truthy (Some "s3 bucket kaise banate hain") = true ->
        status (fst (chat failing_service fresh_app
                       {| req_message := Some "s3 bucket kaise banate hain";
                          req_image := None; req_session_id := None |})) = 200).
Proof.
  apply (text_fault_is_absorbed failing_service fresh_app
           "s3 bucket kaise banate hain" None);
    try (vm_compute; reflexivity).
  intros prompt. eexists. reflexivity.
Defined.

(** Sticky propagation: after a turn about EC2, the follow-up "aur kya?"
    names no service, yet the turn is answered and stored for ec2. *)
Theorem follow_up_inherits_service :
  let sid := get_session_id offline in
  let turn := process_message offline sticky_app "aur kya?" None None in
  detect_service "aur kya?" = None
  /\ (exists response,
        fst turn = Ok response
        /\ r_service_info response = assoc "ec2" AWS_SERVICES
        /\ r_message response = format_service_info "ec2" None None)
  /\ h_service <$> last (history (get_context (conversations (snd turn)) sid))
     = Some (Some "ec2")
  /\ current_service (get_context (conversations (snd turn)) sid) = Some "ec2".
Proof.
  split; [vm_compute; reflexivity|].
  split.
  { eexists. split; [vm_compute; reflexivity|].
    split; vm_compute; reflexivity. }
  split; vm_compute; reflexivity.
Qed.

End follow_up_scenarios.

(** ** Further properties of the store, the detector and the chat view *)

Section further.
Context `{CaseOps}.

(** [detect_topic] finds nothing when the service is [None] or is not a
    key of the knowledge base. *)
Theorem detect_topic_unknown_service (message : string) :
  detect_topic message None = None
  /\ forall s, assoc s AWS_SERVICES = None -> detect_topic message (Some s) = None.
Proof.
  split; [reflexivity|]. intros s Hs. unfold detect_topic. rewrite Hs.
  now destruct (truthy (Some s)).
Qed.

(** After [clear], [get_context] on the same id is the empty default. *)
Theorem clear_then_get_context (conversations : gmap string Context) (sid : string) :
  get_context (clear conversations sid) sid = empty_context.
Proof.
  unfold get_context, clear.
  destruct (conversations !! sid) eqn:Hsid.
  - now rewrite lookup_delete_eq.
  - now rewrite Hsid.
Qed.

(** A chat request with an empty (or missing) message and no image is
    answered 400, and the state is untouched. *)
Theorem chat_rejects_empty (w : World) (app : App) (session_id : option string) :
  chat w app {| req_message := Some ""; req_image := None; req_session_id := session_id |}
  = ({| status := 400; body := ErrorReply "Message ya image toh bhejo yaar!" |}, app)
  /\ chat w app {| req_message := None; req_image := None; req_session_id := session_id |}
     = ({| status := 400; body := ErrorReply "Message ya image toh bhejo yaar!" |}, app).
Proof. split; reflexivity. Qed.

End further.

(* ===================================================================== *)
(** * Further coverage *)
(* ===================================================================== *)

(** ** The substring test *)

Section substring.
Implicit Types (needle hay : string).

Lemma append_cons (x : ascii) (a b : string) : String x a +:+ b = String x (a +:+ b).
Proof. reflexivity. Qed.

Lemma append_assoc (a b c : string) : (a +:+ b) +:+ c = a +:+ b +:+ c.
Proof. induction a as [|x a IH]; [reflexivity|]. now rewrite !append_cons, IH. Qed.

Lemma prefix_append needle rest : String.prefix needle (needle +:+ rest) = true.
Proof.
  induction needle as [|c needle IH]; simpl.
  - now destruct rest.
  - destruct (ascii_dec c c) as [_|Hne]; [exact IH|now destruct Hne].
Qed.

Lemma prefix_split needle hay :
  String.prefix needle hay = true -> exists rest, hay = needle +:+ rest.
Proof.
  revert hay. induction needle as [|c needle IH]; intros hay Hpre.
  - now exists hay.
  - destruct hay as [|d hay]; simpl in Hpre; [discriminate Hpre|].
    destruct (ascii_dec c d) as [->|_]; [|discriminate Hpre].
    destruct (IH _ Hpre) as [rest ->]. now exists rest.
Qed.

Lemma str_in_prefix needle hay : String.prefix needle hay = true -> str_in needle hay = true.
Proof. destruct hay; simpl; now intros ->. Qed.

Lemma str_in_here needle rest : str_in needle (needle +:+ rest) = true.
Proof. apply str_in_prefix, prefix_append. Qed.

Lemma str_in_append_r needle before hay :
  str_in needle hay = true -> str_in needle (before +:+ hay) = true.
Proof.
  intros Hin. induction before as [|c before IH]; [exact Hin|].
  rewrite append_cons. cbn [str_in]. rewrite IH. apply orb_true_r.
Qed.

Lemma str_in_middle needle before rest :
  str_in needle (before +:+ needle +:+ rest) = true.
Proof. apply str_in_append_r, str_in_here. Qed.

Lemma str_in_append_l needle hay rest :
  str_in needle hay = true -> str_in needle (hay +:+ rest) = true.
Proof.
  induction hay as [|c hay IH]; cbn [str_in].
  - rewrite orb_false_r. intros Hpre.
    destruct needle; [|discriminate Hpre]. apply str_in_prefix. now destruct rest.
  - intros [Hpre|Hin]%orb_true_iff.
    + destruct (prefix_split _ _ Hpre) as [tail Htail].
      rewrite Htail, append_assoc. apply str_in_here.
    + rewrite append_cons. cbn [str_in]. rewrite (IH Hin). apply orb_true_r.
Qed.

(** [str_in] is the substring relation. *)
Lemma str_in_spec needle hay :
  str_in needle hay = true <-> exists before rest, hay = before +:+ needle +:+ rest.
Proof.
  split.
  - induction hay as [|c hay IH]; cbn [str_in].
    + rewrite orb_false_r. intros Hpre.
      destruct (prefix_split _ _ Hpre) as [rest ->]. now exists "", rest.
    + intros [Hpre|Hin]%orb_true_iff.
      * destruct (prefix_split _ _ Hpre) as [rest ->]. now exists "", rest.
      * destruct (IH Hin) as (before & rest & ->). now exists (String c before), rest.
  - intros (before & rest & ->). apply str_in_middle.
Qed.

End substring.

Create HintDb contains discriminated.
#[local] Hint Resolve str_in_here str_in_middle str_in_append_l str_in_append_r : contains.

(** ** The session store, continued *)

Section store_frame.
Implicit Types (conversations : gmap string Context).

Lemma store_context_appends_and_frames_core conversations sid u b service topic ts :
  history (get_context (store_context conversations sid u b service topic ts) sid)
  = history (get_context conversations sid)
    ++ [{| h_user := u; h_bot := b; h_service := service; h_topic := topic;
           h_timestamp := ts |}]
  /\ follow_up_count (get_context (store_context conversations sid u b service topic ts) sid)
     = follow_up_count (get_context conversations sid)
  /\ forall other, sid ≠ other ->
       store_context conversations sid u b service topic ts !! other
       = conversations !! other.
Proof.
  rewrite get_context_store, updated_history. split; [reflexivity|]. split.
  - unfold updated. simpl. now destruct (truthy service), (truthy topic).
  - intros other Hne. now apply store_context_lookup_ne.
Qed.

(** One call of [store_context] appends exactly the supplied exchange to the
    session's history, keeps the entries that were there, leaves the
    follow-up counter alone and touches no other session. *)
Theorem store_context_appends_and_frames conversations sid u b service topic ts :
  history (get_context (store_context conversations sid u b service topic ts) sid)
  = history (get_context conversations sid)
    ++ [{| h_user := u; h_bot := b; h_service := service; h_topic := topic;
           h_timestamp := ts |}]
  /\ follow_up_count (get_context (store_context conversations sid u b service topic ts) sid)
     = follow_up_count (get_context conversations sid)
  /\ forall other, sid ≠ other ->
       store_context conversations sid u b service topic ts !! other
       = conversations !! other.
Proof. exact (store_context_appends_and_frames_core conversations sid u b service topic ts). Qed.

Lemma get_context_cleared conversations sid :
  get_context (clear conversations sid) sid = empty_context.
Proof.
  unfold get_context, clear.
  destruct (conversations !! sid) eqn:Hsid; [now rewrite lookup_delete_eq|now rewrite Hsid].
Qed.

(** Clearing a session forgets its sticky fields: the first store after a
    [clear] starts a history of one entry, and the current service and
    topic are the supplied ones if truthy and [None] otherwise; other
    sessions are not affected by the [clear]. *)
Theorem clear_then_store_starts_over conversations sid u b service topic ts :
  let after := get_context (store_context (clear conversations sid) sid u b service topic ts) sid in
  history after = [{| h_user := u; h_bot := b; h_service := service; h_topic := topic;
                      h_timestamp := ts |}]
  /\ current_service after = (if truthy service then service else None)
  /\ current_topic after = (if truthy topic then topic else None)
  /\ forall other, sid ≠ other -> clear conversations sid !! other = conversations !! other.
Proof.
  intros after. subst after.
  rewrite get_context_store, updated_history, updated_current_service,
    updated_current_topic, get_context_cleared. simpl.
  repeat split. intros other Hne. unfold clear.
  destruct (conversations !! sid); [now apply lookup_delete_ne|reflexivity].
Qed.

End store_frame.

(** ** The detector, continued *)

Section detector_tables.
Context `{CaseOps}.

Lemma detected_service_has_entry_core (message : string) :
  match detect_service message with
  | Some s => is_Some (assoc s AWS_SERVICES) /\ truthy (Some s) = true
  | None => True
  end.
Proof.
  destruct (detect_service message) as [s|] eqn:Hdet; [|exact I].
  destruct (detect_service_first_max _ _ Hdet) as (pre & kws & post & Heq & _).
  assert (s ∈ map fst service_keywords) as Hin.
  { rewrite Heq, map_app. apply elem_of_app. right. simpl. left. }
  simpl in Hin.
  repeat (apply elem_of_cons in Hin as [->|Hin]; [split; [eexists|]; reflexivity|]).
  inversion Hin.
Qed.

(** Whatever [detect_service] returns is a key of the knowledge base (and a
    non-empty string): the keyword table names no service the knowledge
    base lacks, so a detected service always has an entry to format. *)
Theorem detected_service_has_entry (message : string) :
  match detect_service message with
  | Some s => is_Some (assoc s AWS_SERVICES) /\ truthy (Some s) = true
  | None => True
  end.
Proof. exact (detected_service_has_entry_core message). Qed.

Lemma first_topic_spec msg_lower subtopics :
  match first_topic msg_lower subtopics with
  | Some topic =>
      exists before rest,
        subtopics = before ++ topic :: rest
        /\ str_in (str_lower topic) msg_lower = true
        /\ Forall (fun t => str_in (str_lower t) msg_lower = false) before
  | None => Forall (fun t => str_in (str_lower t) msg_lower = false) subtopics
  end.
Proof.
  induction subtopics as [|t subtopics IH]; simpl; [constructor|].
  destruct (str_in (str_lower t) msg_lower) eqn:Ht.
  - exists [], subtopics. repeat split; [assumption|constructor].
  - destruct (first_topic msg_lower subtopics) as [topic|].
    + destruct IH as (before & rest & -> & Hin & Hbefore).
      exists (t :: before), rest. repeat split; [assumption|now constructor].
    + now constructor.
Qed.

(** [detect_topic] returns a subtopic of the given service, spelled as the
    knowledge base spells it: the first one, in declared order, whose
    lower-cased text occurs in the lower-cased message.  For a known service
    it returns [None] only when no subtopic occurs. *)
Theorem detect_topic_first_match (message : string) (service : string) (entry : ServiceEntry) :
  assoc service AWS_SERVICES = Some entry ->
  match detect_topic message (Some service) with
  | Some topic =>
      exists before rest,
        svc_subtopics entry = before ++ topic :: rest
        /\ str_in (str_lower topic) (str_lower message) = true
        /\ Forall (fun t => str_in (str_lower t) (str_lower message) = false) before
  | None =>
      Forall (fun t => str_in (str_lower t) (str_lower message) = false)
             (svc_subtopics entry)
  end.
Proof.
  intros Hentry. unfold detect_topic. rewrite Hentry.
  assert (truthy (Some service) = true) as ->.
  { destruct service; [vm_compute in Hentry; discriminate Hentry|reflexivity]. }
  simpl. apply first_topic_spec.
Qed.

End detector_tables.

Lemma detect_topic_first_match_witness :
  exists before rest,
    ["launch"; "security groups"; "key pairs"; "AMI"; "instance types"; "pricing"]
    = before ++ "AMI" :: rest
    /\ str_in (@str_lower ascii_case "AMI") (@str_lower ascii_case "EC2 ka ami kaise chune") = true
    /\ Forall (fun t => str_in (@str_lower ascii_case t)
                               (@str_lower ascii_case "EC2 ka ami kaise chune") = false) before.
Proof.
  pose proof (@detect_topic_first_match ascii_case "EC2 ka ami kaise chune" "ec2" _ eq_refl) as Hspec.
  exact Hspec.
Defined.

(** ** The practice-question generator, continued *)

Section generator.
Context `{CaseOps}.

Lemma generate_question_none w cache difficulty topic :
  generate_question w cache None difficulty topic
  = Raise (AttributeError "NoneType" "upper").
Proof.
  unfold generate_question. now destruct (truthy (GEMINI_API_KEY w)).
Qed.

Lemma generate_question_falls_back_core (w : World)
    (cache : gmap string (list QuestionData))
    (service difficulty : string) (topic : option string) :
  let key := service +:+ "_" +:+ difficulty +:+ "_" +:+ py_str (py_or topic (Some "general")) in
  let prompt :=
    question_prompt (str_upper service)
      (if truthy topic then " specifically about " +:+ py_str topic else "")
      difficulty (Some service) topic in
  let generated : option Json :=
    if truthy (GEMINI_API_KEY w) then
      match generate_content (gemini_service w) prompt with
      | Ok text =>
          match json_loads w (str_strip text) with
          | Ok j => Some j
          | Raise _ => None
          end
      | Raise _ => None
      end
    else None in
  exists fallback,
    get_fallback_question (Some service) difficulty = Ok fallback
    /\ generate_question w cache (Some service) difficulty topic
       = match generated with
         | Some j =>
             Ok (Parsed j, <[key := default [] (cache !! key) ++ [Parsed j]]> cache)
         | None => Ok (Fixed fallback, cache)
         end.
Proof.
  intros key prompt generated. subst key prompt generated.
  destruct (get_fallback_question_returns service difficulty) as [fallback Hfb].
  exists fallback. split; [exact Hfb|].
  unfold generate_question. rewrite Hfb.
  destruct (truthy (GEMINI_API_KEY w)); cbn [negb]; [|reflexivity].
  cbn [upper_of mbind Exc_bind mret Exc_ret try_except py_str].
  destruct (generate_content _ _) as [text|e];
    cbn [upper_of mbind Exc_bind mret Exc_ret try_except py_str]; [|reflexivity].
  destruct (json_loads w _) as [j|e]; reflexivity.
Qed.

(** With a service id that is a string, [generate_question] never raises.
    It returns what [json.loads] made of the service's reply, appended to
    the cache under the key of (service, difficulty, topic or 'general'),
    exactly when a model exists, the generation call returns and its text
    parses; in every other case it returns the fallback question of
    (service, difficulty) and leaves the cache as it was. *)
Theorem generate_question_falls_back (w : World)
    (cache : gmap string (list QuestionData))
    (service difficulty : string) (topic : option string) :
  let key := service +:+ "_" +:+ difficulty +:+ "_" +:+ py_str (py_or topic (Some "general")) in
  let prompt :=
    question_prompt (str_upper service)
      (if truthy topic then " specifically about " +:+ py_str topic else "")
      difficulty (Some service) topic in
  let generated : option Json :=
    if truthy (GEMINI_API_KEY w) then
      match generate_content (gemini_service w) prompt with
      | Ok text =>
          match json_loads w (str_strip text) with
          | Ok j => Some j
          | Raise _ => None
          end
      | Raise _ => None
      end
    else None in
  exists fallback,
    get_fallback_question (Some service) difficulty = Ok fallback
    /\ generate_question w cache (Some service) difficulty topic
       = match generated with
         | Some j =>
             Ok (Parsed j, <[key := default [] (cache !! key) ++ [Parsed j]]> cache)
         | None => Ok (Fixed fallback, cache)
         end.
Proof. exact (generate_question_falls_back_core w cache service difficulty topic). Qed.

(** The cache of generated questions only grows, and only at the end of a
    list: after any call, every key's list has its old list as a prefix and
    is at most one item longer. *)
Theorem generated_questions_append_only (w : World)
    (cache : gmap string (list QuestionData))
    (service : option string) (difficulty : string) (topic : option string) :
  match generate_question w cache service difficulty topic with
  | Ok (_, cache') =>
      forall k, exists added,
        default [] (cache' !! k) = default [] (cache !! k) ++ added
        /\ length added <= 1
  | Raise _ => True
  end.
Proof.
  destruct service as [service|]; [|now rewrite generate_question_none].
  destruct (generate_question_falls_back_core w cache service difficulty topic)
    as (fallback & _ & ->).
  cbv zeta.
  match goal with |- context [match ?g with Some _ => _ | None => _ end] => destruct g as [j|] end.
  - intros k.
    match goal with |- context [<[?key := _]> cache] => destruct (decide (key = k)) as [<-|Hne] end.
    + rewrite lookup_insert_eq. simpl. eexists. split; [reflexivity|]. simpl. lia.
    + rewrite lookup_insert_ne by exact Hne. exists []. rewrite app_nil_r. split; [reflexivity|].
      simpl. lia.
  - intros k. exists []. rewrite app_nil_r. split; [reflexivity|]. simpl. lia.
Qed.

End generator.

(** ** The message pipeline as a whole *)

Section pipeline.
Context `{CaseOps}.

Lemma random_choice_services w :
  exists service, random_choice w service_ids = Ok service /\ service ∈ service_ids.
Proof.
  unfold random_choice.
  assert (random_draw w mod length service_ids < length service_ids) as Hlt
    by (apply Nat.mod_upper_bound; discriminate).
  destruct (lookup_lt_is_Some_2 service_ids _ Hlt) as [service Hservice].
  rewrite Hservice. exists service. split; [reflexivity|].
  now apply list_elem_of_lookup_2 in Hservice.
Qed.

Lemma length_suggestions service subtopics : length (suggestions service subtopics) <= 3.
Proof. unfold suggestions. rewrite length_map, length_take. lia. Qed.


(** How the practice branch ends: in a [return] that stored the turn, unless
    no service could be resolved, in which case it faults with the topic
    still unbound. *)
Lemma practice_branch_exit w context sid fr :
  f_detected_topic fr = None ->
  match practice_branch w context sid fr with
  | Returned fr' =>
      practice_service (f_message fr) context ≠ None
      /\ f_response fr'
         = set_message (r_message (f_response fr'))
             (set_practice_question
                (default (Parsed JNull) (r_practice_question (f_response fr')))
                (f_response fr))
      /\ is_Some (r_practice_question (f_response fr'))
      /\ conversations (f_app fr')
         = store_context (conversations (f_app fr)) sid (f_message fr)
                         (r_message (f_response fr')) None None (now_isoformat w)
  | Faulted e fr' =>
      practice_service (f_message fr) context = None
      /\ f_response fr' = f_response fr
      /\ f_app fr' = f_app fr
      /\ f_message fr' = f_message fr
      /\ f_detected_service fr' = Some None
      /\ f_detected_topic fr' = None
  | Completed _ => False
  end.
Proof.
  intros Htopic. unfold practice_branch. cbv zeta.
  destruct (practice_service (f_message fr) context) as [service|] eqn:Hservice.
  - destruct (differs (Some service) (Some "general")).
    + unfold practice_targeted.
      match goal with
      | |- context [generate_question w ?c (Some service) ?d ?t] =>
          destruct (generate_question_falls_back_core w c service d t) as (fallback & _ & ->)
      end.
      cbv zeta.
      match goal with |- context [match ?g with Some _ => _ | None => _ end] => destruct g end;
        cbn [upper_of]; (split; [discriminate|]); repeat split; eexists; reflexivity.
    + unfold practice_random.
      destruct (random_choice_services w) as (drawn & -> & _).
      match goal with
      | |- context [generate_question w ?c (Some drawn) ?d ?t] =>
          destruct (generate_question_falls_back_core w c drawn d t) as (fallback & _ & ->)
      end.
      cbv zeta.
      match goal with |- context [match ?g with Some _ => _ | None => _ end] => destruct g end;
        (split; [discriminate|]); repeat split; eexists; reflexivity.
  - replace (differs None (Some "general")) with true by reflexivity.
    unfold practice_targeted. rewrite generate_question_none.
    repeat split. exact Htopic.
Qed.

(** How the text branch ends: in a [return] for an image, otherwise at the
    end of the [try] body or in a fault of the generation call; the message
    (rewritten for a follow-up) and both detection results are bound in
    every case, and the store is untouched unless the branch returned. *)
Lemma text_branch_exit w context sid image fr :
  let message :=
    if is_follow_up (f_message fr) context && truthy (current_service context)
    then "Follow-up about " +:+ py_str (current_service context) +:+ ": " +:+ f_message fr
    else f_message fr in
  match text_branch w context sid image fr with
  | Returned fr' =>
      truthy image = true
      /\ f_response fr'
         = set_message (analyze_screenshot w (py_str image) message context) (f_response fr)
      /\ conversations (f_app fr')
         = store_context (conversations (f_app fr)) sid message
                         (r_message (f_response fr')) None None (now_isoformat w)
  | Completed fr' =>
      truthy image = false
      /\ f_app fr' = f_app fr /\ f_message fr' = message
      /\ is_Some (f_detected_service fr') /\ is_Some (f_detected_topic fr')
      /\ r_session_id (f_response fr') = r_session_id (f_response fr)
      /\ (length (r_follow_up_suggestions (f_response fr')) <= 3
          \/ r_follow_up_suggestions (f_response fr')
             = r_follow_up_suggestions (f_response fr))
  | Faulted e fr' =>
      truthy image = false /\ gemini_available w = true
      /\ f_app fr' = f_app fr /\ f_message fr' = message
      /\ is_Some (f_detected_service fr') /\ is_Some (f_detected_topic fr')
      /\ f_response fr' = f_response fr
  end.
Proof.
  intros message. subst message. unfold text_branch. cbv zeta.
  destruct (truthy image).
  - repeat split.
  - destruct (gemini_available w).
    + destruct (model w) as [m|e]; cbn [mbind Exc_bind mret Exc_ret];
        [destruct (generate_content m _) as [text|e]|];
        cbn [mbind Exc_bind mret Exc_ret].
      * match goal with |- context [if truthy ?d then _ else _] => destruct (truthy d) end;
          repeat split; try (eexists; reflexivity);
          first [left; apply length_suggestions | right; reflexivity].
      * repeat split; eexists; reflexivity.
      * repeat split; eexists; reflexivity.
    + cbn [mret Exc_ret].
      match goal with |- context [if truthy ?d then _ else _] => destruct (truthy d) end;
        repeat split; try (eexists; reflexivity);
        first [left; apply length_suggestions | right; reflexivity].
Qed.

Lemma closing_store_unbound_topic w sid fr service :
  f_detected_service fr = Some service ->
  f_detected_topic fr = None ->
  closing_store w sid fr = (Raise (UnboundLocalError "detected_topic"), f_app fr).
Proof. intros Hs Ht. unfold closing_store. now rewrite Hs, Ht. Qed.

(** What a stored turn looks like from outside. *)
Lemma store_context_turn conversations sid u b service topic ts :
  exists e,
    history (get_context (store_context conversations sid u b service topic ts) sid)
    = history (get_context conversations sid) ++ [e]
    /\ h_user e = u /\ h_bot e = b /\ h_service e = service /\ h_topic e = topic
    /\ h_timestamp e = ts.
Proof.
  eexists. split; [apply store_context_appends_and_frames_core|]. repeat split.
Qed.

Lemma process_message_turn_core (w : World) (app : App) (message : string)
    (image_data session_id : option string) :
  let sid := resolved_session w session_id in
  let context := get_context (conversations app) sid in
  match process_message w app message image_data session_id with
  | (Ok response, app') =>
      r_session_id response = sid
      /\ length (r_follow_up_suggestions response) <= 3
      /\ (exists e,
            history (get_context (conversations app') sid) = history context ++ [e]
            /\ h_bot e = r_message response
            /\ h_timestamp e = now_isoformat w
            /\ (h_user e = message
                \/ h_user e = "Follow-up about " +:+ py_str (current_service context)
                              +:+ ": " +:+ message))
      /\ (forall other, sid ≠ other ->
            conversations app' !! other = conversations app !! other)
  | (Raise e, app') =>
      e = UnboundLocalError "detected_topic" /\ app' = app
  end.
Proof.
  intros sid context. unfold process_message. cbv zeta.
  fold (resolved_session w session_id). fold sid. fold context.
  set (fr := {| f_app := app; f_message := message; f_response := _;
                f_detected_service := None; f_detected_topic := None |}).
  unfold try_body. cbv zeta. cbn [f_message fr].
  destruct (any_in greeting_words (str_lower message)).
  { cbn [f_response f_app stored with_app with_response set_message fr
         r_session_id r_follow_up_suggestions r_message conversations].
    split; [reflexivity|]. split; [simpl; lia|]. split.
    - destruct (store_context_turn (conversations app) sid message greeting_message
                  None None (now_isoformat w)) as (entry & He & Hu & Hb & _ & _ & Ht).
      exists entry. repeat split; auto.
    - intros other Hne. now apply store_context_lookup_ne. }
  destruct (any_in practice_words (str_lower message)).
  { pose proof (practice_branch_exit w context sid fr eq_refl) as Hexit.
    destruct (practice_branch w context sid fr) as [fr'|fr'|exn fr'].
    - destruct Hexit as (_ & Hresp & _ & Hconv). cbn [f_message f_app fr] in Hconv.
      split; [now rewrite Hresp|]. split; [rewrite Hresp; simpl; lia|].
      rewrite Hconv. split.
      + destruct (store_context_turn (conversations app) sid message
                    (r_message (f_response fr')) None None (now_isoformat w))
          as (entry & He & Hu & Hb & _ & _ & Ht).
        exists entry. repeat split; auto.
      + intros other Hne. now apply store_context_lookup_ne.
    - destruct Hexit.
    - destruct Hexit as (_ & _ & Happ & _ & Hds & Hdt).
      rewrite (closing_store_unbound_topic w sid _ None) by assumption.
      split; [reflexivity|]. exact Happ. }
  pose proof (text_branch_exit w context sid image_data fr) as Hexit.
  cbv zeta in Hexit. cbn [f_message fr] in Hexit.
  destruct (text_branch w context sid image_data fr) as [fr'|fr'|exn fr'].
  - destruct Hexit as (_ & Hresp & Hconv). cbn [f_app fr] in Hconv.
    split; [now rewrite Hresp|]. split; [rewrite Hresp; simpl; lia|].
    rewrite Hconv. split.
    + match type of Hconv with _ = store_context _ _ ?u ?b _ _ _ =>
        destruct (store_context_turn (conversations app) sid u b None None (now_isoformat w))
          as (entry & He & Hu & Hb & _ & _ & Ht)
      end.
      exists entry. repeat split; auto. rewrite Hu.
      destruct (is_follow_up message context && truthy (current_service context)); auto.
    + intros other Hne. now apply store_context_lookup_ne.
  - destruct Hexit as (_ & Happ & Hmsg & [ds Hds] & [dt Hdt] & Hsid & Hsugg).
    rewrite (closing_store_bound w sid fr' ds dt Hds Hdt).
    cbn [stored with_app f_app conversations]. rewrite Happ. cbn [f_app fr].
    split; [exact Hsid|]. split; [destruct Hsugg as [Hle| ->]; [exact Hle|simpl; lia]|].
    split.
    + destruct (store_context_turn (conversations app) sid (f_message fr')
                  (r_message (f_response fr')) ds dt (now_isoformat w))
        as (entry & He & Hu & Hb & _ & _ & Ht).
      exists entry. repeat split; auto. rewrite Hu, Hmsg.
      destruct (is_follow_up message context && truthy (current_service context)); auto.
    + intros other Hne. now apply store_context_lookup_ne.
  - destruct Hexit as (_ & _ & Happ & Hmsg & [ds Hds] & [dt Hdt] & Hresp).
    rewrite (closing_store_bound w sid (with_response (set_message apology_message) fr')
               ds dt Hds Hdt).
    cbn [stored with_app with_response f_app f_response f_message conversations
         set_message r_message r_session_id r_follow_up_suggestions].
    rewrite Happ, Hresp. cbn [f_app f_response fr r_session_id r_follow_up_suggestions].
    split; [reflexivity|]. split; [simpl; lia|]. split.
    + destruct (store_context_turn (conversations app) sid (f_message fr')
                  apology_message ds dt (now_isoformat w))
        as (entry & He & Hu & Hb & _ & _ & Ht).
      exists entry. repeat split; auto. rewrite Hu, Hmsg.
      destruct (is_follow_up message context && truthy (current_service context)); auto.
    + intros other Hne. now apply store_context_lookup_ne.
Qed.

(** Every turn that [process_message] answers appends exactly one exchange
    to the session it worked on: the entry's bot text is the message of the
    reply, its user text is the text sent (or that text behind the follow-up
    prefix), its time stamp is the request's; no other session changes; the
    reply carries the session id and at most three follow-up suggestions.
    The only exception that can escape is the unbound [detected_topic], and
    then the singleton's state is exactly as before. *)
Theorem process_message_turn (w : World) (app : App) (message : string)
    (image_data session_id : option string) :
  let sid := resolved_session w session_id in
  let context := get_context (conversations app) sid in
  match process_message w app message image_data session_id with
  | (Ok response, app') =>
      r_session_id response = sid
      /\ length (r_follow_up_suggestions response) <= 3
      /\ (exists e,
            history (get_context (conversations app') sid) = history context ++ [e]
            /\ h_bot e = r_message response
            /\ h_timestamp e = now_isoformat w
            /\ (h_user e = message
                \/ h_user e = "Follow-up about " +:+ py_str (current_service context)
                              +:+ ": " +:+ message))
      /\ (forall other, sid ≠ other ->
            conversations app' !! other = conversations app !! other)
  | (Raise e, app') =>
      e = UnboundLocalError "detected_topic" /\ app' = app
  end.
Proof. exact (process_message_turn_core w app message image_data session_id). Qed.



(** What the text branch binds the detection results to. *)
Lemma text_branch_bindings w context sid image fr :
  let message := f_message fr in
  let effective :=
    if is_follow_up message context && truthy (current_service context)
    then py_or (detect_service message) (current_service context)
    else detect_service message in
  let topic :=
    if truthy (detect_service message)
    then detect_topic message (detect_service message) else None in
  match text_branch w context sid image fr with
  | Returned _ => True
  | Completed fr' | Faulted _ fr' =>
      f_detected_service fr' = Some effective /\ f_detected_topic fr' = Some topic
  end.
Proof.
  intros message effective topic. subst message effective topic.
  unfold text_branch. cbv zeta.
  destruct (truthy image); [exact I|].
  destruct (gemini_available w).
  - destruct (model w) as [m|e]; cbn [mbind Exc_bind mret Exc_ret];
      [destruct (generate_content m _) as [text|e]|];
      cbn [mbind Exc_bind mret Exc_ret];
      try (split; reflexivity).
    match goal with |- context [if truthy ?d then _ else _] => destruct (truthy d) end;
      split; reflexivity.
  - cbn [mret Exc_ret].
    match goal with |- context [if truthy ?d then _ else _] => destruct (truthy d) end;
      split; reflexivity.
Qed.

(** The one [store_context] call behind an answered turn. *)
Lemma process_message_store (w : World) (app : App) (message : string)
    (image_data session_id : option string) :
  let sid := resolved_session w session_id in
  let context := get_context (conversations app) sid in
  match process_message w app message image_data session_id with
  | (Ok response, app') =>
      exists u service topic,
        conversations app'
        = store_context (conversations app) sid u (r_message response) service topic
                        (now_isoformat w)
        /\ (service = None \/ service = detect_service message
            \/ service = current_service context)
        /\ (topic = None \/ topic = detect_topic message (detect_service message))
  | (Raise _, app') => app' = app
  end.
Proof.
  intros sid context. unfold process_message. cbv zeta.
  fold (resolved_session w session_id). fold sid. fold context.
  set (fr := {| f_app := app; f_message := message; f_response := _;
                f_detected_service := None; f_detected_topic := None |}).
  unfold try_body. cbv zeta. cbn [f_message fr].
  destruct (any_in greeting_words (str_lower message)).
  { exists message, None, None. repeat split; auto. }
  destruct (any_in practice_words (str_lower message)).
  { pose proof (practice_branch_exit w context sid fr eq_refl) as Hexit.
    destruct (practice_branch w context sid fr) as [fr'|fr'|exn fr'].
    - destruct Hexit as (_ & _ & _ & Hconv). exists message, None, None.
      repeat split; auto.
    - destruct Hexit.
    - destruct Hexit as (_ & _ & Happ & _ & Hds & Hdt).
      now rewrite (closing_store_unbound_topic w sid _ None). }
  pose proof (text_branch_exit w context sid image_data fr) as Hexit.
  pose proof (text_branch_bindings w context sid image_data fr) as Hbind.
  cbv zeta in Hexit, Hbind. cbn [f_message fr] in Hexit, Hbind.
  assert (forall service,
            service = (if is_follow_up message context && truthy (current_service context)
                       then py_or (detect_service message) (current_service context)
                       else detect_service message) ->
            service = None \/ service = detect_service message
            \/ service = current_service context) as Hservice.
  { intros service ->. unfold py_or.
    destruct (is_follow_up message context && truthy (current_service context)),
      (truthy (detect_service message)); auto. }
  assert (forall topic,
            topic = (if truthy (detect_service message)
                     then detect_topic message (detect_service message) else None) ->
            topic = None \/ topic = detect_topic message (detect_service message)) as Htopic.
  { intros topic ->. destruct (truthy (detect_service message)); auto. }
  destruct (text_branch w context sid image_data fr) as [fr'|fr'|exn fr'].
  - destruct Hexit as (_ & _ & Hconv). cbn [f_app fr] in Hconv.
    eexists _, None, None. split; [exact Hconv|]. split; auto.
  - destruct Hexit as (_ & Happ & _). destruct Hbind as [Hds Hdt].
    rewrite (closing_store_bound w sid fr' _ _ Hds Hdt).
    cbn [stored with_app f_app conversations]. rewrite Happ. cbn [f_app fr].
    eexists _, _, _. split; [reflexivity|]. split; [now apply Hservice|now apply Htopic].
  - destruct Hexit as (_ & _ & Happ & _). destruct Hbind as [Hds Hdt].
    rewrite (closing_store_bound w sid (with_response (set_message apology_message) fr')
               _ _ Hds Hdt).
    cbn [stored with_app with_response f_app f_response f_message conversations
         set_message r_message].
    rewrite Happ. cbn [f_app fr].
    eexists _, _, _. split; [reflexivity|]. split; [now apply Hservice|now apply Htopic].
Qed.

Lemma sticky_fields_after_turn_core (w : World) (app : App) (message : string)
    (image_data session_id : option string) :
  let sid := resolved_session w session_id in
  let before := get_context (conversations app) sid in
  let after :=
    get_context (conversations (snd (process_message w app message image_data session_id)))
                sid in
  (current_service after = current_service before
   \/ current_service after = detect_service message)
  /\ (current_topic after = current_topic before
      \/ current_topic after = detect_topic message (detect_service message)).
Proof.
  intros sid before after. subst after.
  pose proof (process_message_store w app message image_data session_id) as Hstore.
  cbv zeta in Hstore. fold sid in Hstore. fold before in Hstore.
  destruct (process_message w app message image_data session_id) as [[response|exn] app'];
    cbn [snd]; [|subst app'; auto].
  destruct Hstore as (u & service & topic & -> & Hservice & Htopic).
  rewrite get_context_store, updated_current_service, updated_current_topic.
  cbn [h_service h_topic]. fold before. split.
  - destruct (truthy service) eqn:Htruthy; [|now left].
    destruct Hservice as [->| [->| ->]]; auto. discriminate Htruthy.
  - destruct (truthy topic) eqn:Htruthy; [|now left].
    destruct Htopic as [->| ->]; auto. discriminate Htruthy.
Qed.


Lemma sticky_known_context conversations sid :
  sticky_known conversations ->
  known_service (current_service (get_context conversations sid)).
Proof.
  intros Hinv. unfold get_context.
  destruct (conversations !! sid) as [c|] eqn:Hc; [exact (Hinv _ _ Hc)|exact I].
Qed.

Lemma detect_service_known message : known_service (detect_service message).
Proof.
  pose proof (detected_service_has_entry_core message) as Hdet.
  destruct (detect_service message); [exact (proj1 Hdet)|exact I].
Qed.

(** [process_message] keeps every sticky service inside the knowledge
    base. *)
Lemma process_message_sticky_known (w : World) (app : App) (message : string)
    (image_data session_id : option string) :
  sticky_known (conversations app) ->
  sticky_known (conversations (snd (process_message w app message image_data session_id))).
Proof.
  intros Hinv other c Hother.
  pose proof (sticky_fields_after_turn_core w app message image_data session_id) as [Hsticky _].
  pose proof (process_message_turn_core w app message image_data session_id) as Hturn.
  cbv zeta in Hsticky, Hturn.
  destruct (decide (resolved_session w session_id = other)) as [<-|Hne].
  - unfold get_context at 1 3 in Hsticky. rewrite Hother in Hsticky. simpl in Hsticky.
    destruct Hsticky as [-> | ->];
      [now apply sticky_known_context|apply detect_service_known].
  - destruct (process_message w app message image_data session_id)
      as [[response|exn] app']; cbn [snd] in *.
    + destruct Hturn as (_ & _ & _ & Hframe). rewrite (Hframe _ Hne) in Hother.
      exact (Hinv _ _ Hother).
    + destruct Hturn as [_ ->]. exact (Hinv _ _ Hother).
Qed.

Lemma reachable_sticky_known_core (app : App) :
  reachable app -> sticky_known (conversations app).
Proof.
  induction 1 as [|w app data _ IH|w app data _ IH|app sid _ IH].
  - intros sid c Hc. unfold fresh_app in Hc. cbn [conversations] in Hc.
    rewrite lookup_empty in Hc. discriminate Hc.
  - unfold chat.
    destruct (negb (truthy (Some (dict_get (req_message data) "")))
              && negb (truthy (req_image data))); [exact IH|].
    pose proof (process_message_sticky_known w app (dict_get (req_message data) "")
                  (req_image data) (req_session_id data) IH) as Hstep.
    destruct (process_message w app (dict_get (req_message data) "")
                (req_image data) (req_session_id data)) as [[response|exn] app'];
      exact Hstep.
  - unfold get_practice_question.
    match goal with |- context [match ?attempt with Ok _ => _ | Raise _ => _ end] =>
      assert (match attempt with
              | Ok answer => conversations (snd answer) = conversations app
              | Raise _ => True
              end) as Hsame;
      [|destruct attempt as [answer|exn]; [cbn [snd] in *; now rewrite Hsame|exact IH]]
    end.
    destruct (random_choice w service_ids) as [drawn|exn]; cbn [mbind Exc_bind]; [|exact I].
    destruct (negb (py_in _ _)); [reflexivity|].
    destruct (negb (in_services _)); [reflexivity|].
    destruct (generate_question _ _ _ _ _) as [generated|exn]; [reflexivity|exact I].
  - intros other c Hc. cbn [clear_conversation snd conversations] in Hc. unfold clear in Hc.
    destruct (conversations app !! sid) eqn:Hsid; [|exact (IH _ _ Hc)].
    destruct (decide (sid = other)) as [->|Hne].
    + rewrite lookup_delete_eq in Hc. discriminate Hc.
    + rewrite lookup_delete_ne in Hc by exact Hne. exact (IH _ _ Hc).
Qed.

(** In every state the process can reach, each session's sticky service is
    [None] or a key of the knowledge base. *)
Theorem reachable_sticky_known (app : App) :
  reachable app -> sticky_known (conversations app).
Proof. exact (reachable_sticky_known_core app). Qed.

(** In every reachable state the practice branch takes its targeted arm:
    the service it resolves is never ['general'], so the arm that draws a
    random service is never run by [process_message]. *)
Theorem random_arm_unreachable (app : App) (w : World) (session_id : string) (fr : Frame) :
  reachable app ->
  let context := get_context (conversations app) session_id in
  let service := practice_service (f_message fr) context in
  service ≠ Some "general"
  /\ practice_branch w context session_id fr
     = practice_targeted w session_id service (practice_difficulty (f_message fr))
         (detect_topic (f_message fr) service) (bind_detected_service service fr).
Proof.
  intros Hreach context service.
  assert (service ≠ Some "general") as Hne.
  { subst service. unfold practice_service, py_or, dict_get.
    pose proof (detect_service_known (f_message fr)) as Hdet.
    pose proof (sticky_known_context _ session_id (reachable_sticky_known_core _ Hreach)) as Hctx.
    fold context in Hctx.
    destruct (truthy (detect_service (f_message fr)));
      [destruct (detect_service (f_message fr))|destruct (current_service context)];
      try discriminate; intros [= ->];
      match goal with Hk : known_service (Some "general") |- _ =>
        destruct Hk as [entry Hentry]; vm_compute in Hentry; discriminate Hentry
      end. }
  split; [exact Hne|].
  unfold practice_branch. cbv zeta. fold context. fold service.
  unfold differs. destruct (decide (service = Some "general")) as [Heq|_]; [|reflexivity].
  now destruct Hne.
Qed.


End pipeline.

Lemma reachable_sticky_known_witness :
  known_service
    (current_service
       (get_context
          (conversations
             (snd (@chat ascii_case offline fresh_app
                     {| req_message := Some "ec2 instance kaise launch kare console mein";
                        req_image := None; req_session_id := None |})))
          "0a1b2c3d")).
Proof.
  apply sticky_known_context.
  apply (@reachable_sticky_known ascii_case).
  apply reach_chat, reach_start.
Defined.

Lemma random_arm_unreachable_witness :
  let fr := {| f_app := fresh_app; f_message := "quiz";
               f_response := {| r_message := ""; r_service_info := None;
                                r_code_examples := None; r_troubleshooting := None;
                                r_practice_question := None; r_session_id := "s1";
                                r_follow_up_suggestions := [] |};
               f_detected_service := None; f_detected_topic := None |} in
  let context := get_context (conversations fresh_app) "s1" in
  let service := @practice_service ascii_case "quiz" context in
  @practice_branch ascii_case offline context "s1" fr
  = @practice_targeted ascii_case offline "s1" service
      (@practice_difficulty ascii_case "quiz")
      (@detect_topic ascii_case "quiz" service) (bind_detected_service service fr).
Proof.
  intros fr context service.
  refine (proj2 (@random_arm_unreachable ascii_case fresh_app offline "s1" fr _)).
  apply reach_start.
Defined.

(** ** The branches of [process_message] *)

Section branches.
Context `{CaseOps}.

(** A greeting word anywhere in the text wins over everything else: the
    reply is the greeting template whatever image came with the request and
    whatever else the text asks for; no question, service entry or
    suggestion is attached; the turn is stored as sent with no service, so
    the sticky fields stay as they were. *)
Theorem greeting_takes_priority (w : World) (app : App) (message : string)
    (image_data session_id : option string) :
  any_in greeting_words (str_lower message) = true ->
  let sid := resolved_session w session_id in
  let before := get_context (conversations app) sid in
  process_message w app message image_data session_id
  = process_message w app message None session_id
  /\ exists response app',
       process_message w app message image_data session_id = (Ok response, app')
       /\ r_message response = greeting_message
       /\ r_practice_question response = None
       /\ r_service_info response = None
       /\ r_follow_up_suggestions response = []
       /\ history (get_context (conversations app') sid)
          = history before
            ++ [{| h_user := message; h_bot := greeting_message; h_service := None;
                   h_topic := None; h_timestamp := now_isoformat w |}]
       /\ current_service (get_context (conversations app') sid) = current_service before
       /\ current_topic (get_context (conversations app') sid) = current_topic before.
Proof.
  intros Hgreet sid before. unfold process_message, try_body. cbv zeta.
  cbn [f_message]. rewrite Hgreet. split; [reflexivity|].
  do 2 eexists. split; [reflexivity|].
  cbn [f_response f_app stored with_app with_response set_message
       r_message r_practice_question r_service_info r_follow_up_suggestions conversations].
  fold (resolved_session w session_id). fold sid.
  rewrite get_context_store, updated_history, updated_current_service, updated_current_topic.
  repeat split.
Qed.

(** A practice request (no greeting) for which a service other than
    ['general'] is resolved, from the text or from the sticky service, is
    always answered: the reply carries the question that
    [generate_question] returned for that service and the header naming it,
    and the turn is stored as sent but without the service, so a practice
    request never sets or changes the sticky fields. *)
Theorem practice_request_with_service (w : World) (app : App) (message : string)
    (image_data session_id : option string) (service : string) :
  let sid := resolved_session w session_id in
  let before := get_context (conversations app) sid in
  any_in greeting_words (str_lower message) = false ->
  any_in practice_words (str_lower message) = true ->
  practice_service message before = Some service ->
  service ≠ "general" ->
  exists response app' question cache,
    process_message w app message image_data session_id = (Ok response, app')
    /\ generate_question w (generated_questions app) (Some service)
         (practice_difficulty message) (detect_topic message (Some service))
       = Ok (question, cache)
    /\ r_practice_question response = Some question
    /\ generated_questions app' = cache
    /\ r_message response
       = "**" +:+ str_upper service +:+ " Practice Question** ("
         +:+ practice_difficulty message +:+ " level) 🤔"
    /\ history (get_context (conversations app') sid)
       = history before
         ++ [{| h_user := message; h_bot := r_message response; h_service := None;
                h_topic := None; h_timestamp := now_isoformat w |}]
    /\ current_service (get_context (conversations app') sid) = current_service before
    /\ current_topic (get_context (conversations app') sid) = current_topic before.
Proof.
  intros sid before Hgreet Hpractice Hservice Hne.
  unfold process_message, try_body. cbv zeta. cbn [f_message].
  fold (resolved_session w session_id). fold sid. fold before.
  rewrite Hgreet, Hpractice. unfold practice_branch. cbv zeta. cbn [f_message].
  rewrite Hservice.
  assert (differs (Some service) (Some "general") = true) as ->.
  { unfold differs. destruct (decide (Some service = Some "general")) as [[= ->]|_];
      [now destruct Hne|reflexivity]. }
  unfold practice_targeted.
  match goal with
  | |- context [generate_question w ?c (Some service) ?d ?t] =>
      destruct (generate_question_falls_back_core w c service d t) as (fallback & _ & Hgen)
  end.
  cbv zeta in Hgen.
  cbn [f_app bind_detected_service generated_questions] in *.
  rewrite Hgen.
  match goal with |- context [match ?g with Some _ => _ | None => _ end] => destruct g end;
    cbn [upper_of]; do 4 eexists; (split; [reflexivity|]); (split; [reflexivity|]);
    cbn [f_response f_app stored with_app with_cache with_response set_message
         set_practice_question bind_detected_service f_message
         r_message r_practice_question conversations generated_questions];
    rewrite get_context_store, updated_history, updated_current_service,
      updated_current_topic;
    repeat split.
Qed.

(** A request with an image whose text is neither a greeting nor a practice
    request is always answered with the text of [analyze_screenshot] (the
    fixed not-available text when no key is configured); no service entry
    and no suggestion is attached, and the turn is stored without a service
    or topic, so an image turn never changes the sticky fields, whatever
    service its text names. *)
Theorem image_turn (w : World) (app : App) (message : string)
    (image_data session_id : option string) :
  let sid := resolved_session w session_id in
  let before := get_context (conversations app) sid in
  let text :=
    if is_follow_up message before && truthy (current_service before)
    then "Follow-up about " +:+ py_str (current_service before) +:+ ": " +:+ message
    else message in
  any_in greeting_words (str_lower message) = false ->
  any_in practice_words (str_lower message) = false ->
  truthy image_data = true ->
  exists response app',
    process_message w app message image_data session_id = (Ok response, app')
    /\ r_message response = analyze_screenshot w (py_str image_data) text before
    /\ (gemini_available w = false -> r_message response = screenshot_not_available)
    /\ r_service_info response = None
    /\ r_follow_up_suggestions response = []
    /\ history (get_context (conversations app') sid)
       = history before
         ++ [{| h_user := text; h_bot := r_message response; h_service := None;
                h_topic := None; h_timestamp := now_isoformat w |}]
    /\ current_service (get_context (conversations app') sid) = current_service before
    /\ current_topic (get_context (conversations app') sid) = current_topic before.
Proof.
  intros sid before text Hgreet Hpractice Himage. subst text.
  unfold process_message, try_body. cbv zeta. cbn [f_message].
  fold (resolved_session w session_id). fold sid. fold before.
  rewrite Hgreet, Hpractice. unfold text_branch. cbv zeta. cbn [f_message].
  rewrite Himage.
  do 2 eexists. split; [reflexivity|].
  cbn [f_response f_app stored with_app with_response set_message bind_message
       bind_detected_topic bind_detected_service
       r_message r_service_info r_follow_up_suggestions conversations].
  rewrite get_context_store, updated_history, updated_current_service, updated_current_topic.
  repeat split.
  intros Hoff. unfold analyze_screenshot. now rewrite Hoff.
Qed.

(** A key that is set to the empty string passes the [is not None] test but
    creates no [model].  Then question generation uses the fallback table,
    screenshot analysis always gives its failure text, and every turn on
    the text path is answered with the apology. *)
Theorem blank_key_degrades (w : World) :
  GEMINI_API_KEY w = Some "" ->
  gemini_available w = true
  /\ model w = Raise (NameError "model")
  /\ (forall cache service difficulty topic,
        exists fallback,
          get_fallback_question (Some service) difficulty = Ok fallback
          /\ generate_question w cache (Some service) difficulty topic
             = Ok (Fixed fallback, cache))
  /\ (forall image message context,
        analyze_screenshot w image message context = screenshot_failed)
  /\ (forall app message session_id,
        any_in greeting_words (str_lower message) = false ->
        any_in practice_words (str_lower message) = false ->
        exists response app',
          process_message w app message None session_id = (Ok response, app')
          /\ r_message response = apology_message).
Proof.
  intros Hkey.
  assert (gemini_available w = true) as Havail by (unfold gemini_available; now rewrite Hkey).
  assert (model w = Raise (NameError "model")) as Hmodel by (unfold model; now rewrite Hkey).
  split; [exact Havail|]. split; [exact Hmodel|]. split; [|split].
  - intros cache service difficulty topic.
    destruct (generate_question_falls_back_core w cache service difficulty topic)
      as (fallback & Hfb & Hgen).
    cbv zeta in Hgen. rewrite Hkey in Hgen. exists fallback. now split.
  - intros image message context. unfold analyze_screenshot.
    rewrite Havail, Hmodel. cbn [negb]. now destruct (open_image w image).
  - intros app message session_id Hgreet Hpractice.
    unfold process_message, try_body. cbv zeta. cbn [f_message].
    rewrite Hgreet, Hpractice. unfold text_branch. cbv zeta. cbn [f_message truthy].
    rewrite Havail, Hmodel. cbn [mbind Exc_bind].
    do 2 eexists. split.
    + erewrite closing_store_bound by reflexivity. reflexivity.
    + reflexivity.
Qed.

End branches.

Section branch_scenarios.
#[local] Existing Instance ascii_case.

Lemma greeting_takes_priority_witness :
  process_message offline fresh_app "which s3 storage class is cheapest"
                  (Some "data:image/png;base64,AAAA") None
  = process_message offline fresh_app "which s3 storage class is cheapest" None None.
Proof.
  refine (proj1 (greeting_takes_priority offline fresh_app
                   "which s3 storage class is cheapest"
                   (Some "data:image/png;base64,AAAA") None _)).
  vm_compute. reflexivity.
Defined.

Lemma practice_request_with_service_witness :
  exists response app',
    process_message offline sticky_app "next question do" None None = (Ok response, app')
    /\ r_message response = "**EC2 Practice Question** (beginner level) 🤔"
    /\ current_service (get_context (conversations app') (get_session_id offline))
       = Some "ec2".
Proof.
  destruct (practice_request_with_service offline sticky_app "next question do" None None "ec2")
    as (response & app' & question & cache & Hpm & _ & _ & _ & Hmsg & _ & Hservice & _);
    try (vm_compute; reflexivity); [discriminate|].
  exists response, app'. split; [exact Hpm|]. split; [exact Hmsg|]. exact Hservice.
Defined.

Lemma image_turn_witness :
  exists response app',
    process_message offline fresh_app "s3 bucket error dekho"
                    (Some "data:image/png;base64,AAAA") None = (Ok response, app')
    /\ r_message response = screenshot_not_available
    /\ current_service (get_context (conversations app') (get_session_id offline)) = None.
Proof.
  destruct (image_turn offline fresh_app "s3 bucket error dekho"
              (Some "data:image/png;base64,AAAA") None)
    as (response & app' & Hpm & _ & Hoff & _ & _ & _ & Hservice & _);
    try (vm_compute; reflexivity).
  exists response, app'. split; [exact Hpm|]. split; [now apply Hoff|exact Hservice].
Defined.

Lemma blank_key_degrades_witness :
  gemini_available blank_key = true /\ model blank_key = Raise (NameError "model").
Proof.
  destruct (blank_key_degrades blank_key eq_refl) as (Havail & Hmodel & _).
  split; assumption.
Defined.

End branch_scenarios.

(** ** The formatted reply and the prompt *)

Section formatting.
Context `{CaseOps}.

Lemma numbered_contains (issues : list string) (start : nat) (issue : string) :
  issue ∈ issues -> str_in issue (numbered start issues) = true.
Proof.
  intros Hin. revert start. induction Hin as [issue rest|issue other rest _ IH];
    intros start; cbn [numbered]; auto 10 with contains.
Qed.

(** For every service of the knowledge base [format_service_info] shows the
    instructions that were asked for: the console steps, CLI command or SDK
    call when that access method is given, and all three when none is; in
    every case the reply carries the service's name and each of its
    troubleshooting steps. *)
Theorem format_service_info_contents (service : string) (entry : ServiceEntry)
    (topic : option string) :
  assoc service AWS_SERVICES = Some entry ->
  str_in (svc_console entry) (format_service_info service (Some "console") topic) = true
  /\ str_in (svc_cli entry) (format_service_info service (Some "cli") topic) = true
  /\ str_in (svc_sdk entry) (format_service_info service (Some "sdk") topic) = true
  /\ (str_in (svc_console entry) (format_service_info service None topic) = true
      /\ str_in (svc_cli entry) (format_service_info service None topic) = true
      /\ str_in (svc_sdk entry) (format_service_info service None topic) = true)
  /\ forall access_method,
       str_in (svc_name entry) (format_service_info service access_method topic) = true
       /\ Forall (fun issue =>
                    str_in issue (format_service_info service access_method topic) = true)
                 (svc_troubleshoot entry).
Proof.
  intros Hentry. unfold format_service_info. rewrite Hentry. cbv zeta.
  change (String.eqb (py_str (Some "console")) "console") with true.
  change (String.eqb (py_str (Some "cli")) "console") with false.
  change (String.eqb (py_str (Some "cli")) "cli") with true.
  change (String.eqb (py_str (Some "sdk")) "console") with false.
  change (String.eqb (py_str (Some "sdk")) "cli") with false.
  change (String.eqb (py_str (Some "sdk")) "sdk") with true.
  change (truthy (Some "console")) with true.
  change (truthy (Some "cli")) with true.
  change (truthy (Some "sdk")) with true.
  change (truthy None) with false.
  cbv iota.
  destruct (svc_subtopics entry), (truthy topic);
  (do 3 (split; [solve [auto 30 with contains]|]));
  (split; [repeat split; solve [auto 30 with contains]|]);
  intros access_method;
  destruct (truthy access_method);
    repeat match goal with |- context [if ?b then _ else _] => destruct b end;
    (split; [auto 30 with contains|]);
    apply Forall_forall; intros issue Hin;
    pose proof (numbered_contains _ 1 issue Hin) as Hnum;
    auto 30 with contains.
Qed.

Lemma drop_recent {A} (l : list A) :
  let recent := drop (length l - 2) l in
  drop (length recent - 2) recent = recent
  /\ length recent <= 2
  /\ (l ≠ [] -> recent ≠ []).
Proof.
  intros recent. subst recent.
  assert (length (drop (length l - 2) l) <= 2) as Hlen by (rewrite length_drop; lia).
  split; [|split; [exact Hlen|]].
  - replace (length (drop (length l - 2) l) - 2) with 0 by lia. reflexivity.
  - intros Hne Hnil. apply (f_equal length) in Hnil. rewrite length_drop in Hnil.
    destruct l; [now destruct Hne|]. simpl in Hnil. lia.
Qed.

(** The prompt sent to the generation service contains the user's message
    and depends on the history only through its last two exchanges: older
    exchanges never reach the service. *)
Theorem prompt_uses_recent_history (w : World) (message : string) (context : Context)
    (detected_service : option string) :
  create_enhanced_prompt w message context detected_service
  = create_enhanced_prompt w message (recent_only context) detected_service
  /\ length (history (recent_only context)) <= 2
  /\ str_in message (create_enhanced_prompt w message context detected_service) = true.
Proof.
  destruct (drop_recent (history context)) as (Hdrop & Hlen & Hne).
  split; [|split; [exact Hlen|]].
  - unfold create_enhanced_prompt. cbv zeta.
    cbn [recent_only history current_service current_topic].
    rewrite Hdrop.
    destruct (history context) as [|e rest] eqn:Hhist; [reflexivity|].
    destruct (drop (length (e :: rest) - 2) (e :: rest)) eqn:Hrecent;
      [now destruct Hne|reflexivity].
  - unfold create_enhanced_prompt. cbv zeta. auto 30 with contains.
Qed.

End formatting.

Lemma format_service_info_contents_witness :
  str_in "S3 Dashboard → Create Bucket → Enter name → Select region → Create"
         (@format_service_info ascii_case "s3" (Some "console") (Some "buckets")) = true.
Proof.
  pose proof (@format_service_info_contents ascii_case "s3" _ (Some "buckets") eq_refl)
    as [Hconsole _].
  exact Hconsole.
Defined.

(** ** The practice endpoint *)

Section practice_endpoint.
Context `{CaseOps}.

Lemma in_services_listed service :
  service ∈ service_ids -> in_services (Some service) = true.
Proof.
  intros Hin. vm_compute in Hin.
  repeat (apply elem_of_cons in Hin as [->|Hin]; [reflexivity|]).
  inversion Hin.
Qed.

Lemma practice_endpoint_status_core (w : World) (app : App) (data : PracticeRequest) :
  let difficulty := dict_get (pr_difficulty data) (Some "beginner") in
  let answer := get_practice_question w app data in
  fst (fst answer)
  = (if negb (py_in difficulty ["beginner"; "intermediate"; "advanced"]) then 400
     else match pr_service data with
          | Some service => if in_services service then 200 else 400
          | None => 200
          end)
  /\ conversations (snd answer) = conversations app
  /\ match snd (fst answer) with
     | QuestionReply _ => fst (fst answer) = 200
     | PracticeError _ => fst (fst answer) = 400
     end.
Proof.
  intros difficulty answer. subst answer. unfold get_practice_question. cbv zeta.
  fold difficulty.
  destruct (random_choice_services w) as (drawn & -> & Hdrawn).
  cbn [mbind Exc_bind mret Exc_ret].
  destruct (negb (py_in difficulty ["beginner"; "intermediate"; "advanced"]));
    [repeat split|].
  assert (forall service,
            in_services service = true ->
            exists generated,
              generate_question w (generated_questions app) service
                                (py_str difficulty) (dict_get (pr_topic data) None)
              = Ok generated) as Hgen.
  { intros [service|] Hknown; [|discriminate Hknown].
    destruct (generate_question_falls_back_core w (generated_questions app) service
                (py_str difficulty) (dict_get (pr_topic data) None)) as (fallback & _ & ->).
    cbv zeta.
    match goal with |- context [match ?g with Some _ => _ | None => _ end] => destruct g end;
      eexists; reflexivity. }
  destruct (pr_service data) as [service|]; cbn [dict_get].
  - destruct (in_services service) eqn:Hknown; cbn [negb]; [|repeat split].
    destruct (Hgen _ Hknown) as [generated ->]. repeat split.
  - rewrite (in_services_listed _ Hdrawn). cbn [negb].
    destruct (Hgen _ (in_services_listed _ Hdrawn)) as [generated ->]. repeat split.
Qed.


(** Every id that [GET /api/services] lists is accepted by
    [POST /api/practice]: with that service and a valid difficulty the
    answer is 200. *)
Theorem listed_services_are_practicable (w : World) (app : App)
    (listing : ServiceListing) (difficulty : string) (topic : option (option string)) :
  listing ∈ get_services ->
  difficulty ∈ ["beginner"; "intermediate"; "advanced"] ->
  fst (fst (get_practice_question w app
              {| pr_difficulty := Some (Some difficulty);
                 pr_service := Some (Some (sl_id listing));
                 pr_topic := topic |})) = 200.
Proof.
  intros Hlisted Hlevel.
  destruct (practice_endpoint_status_core w app
              {| pr_difficulty := Some (Some difficulty);
                 pr_service := Some (Some (sl_id listing));
                 pr_topic := topic |}) as (-> & _).
  cbn [dict_get pr_difficulty pr_service].
  assert (py_in (Some difficulty) ["beginner"; "intermediate"; "advanced"] = true) as ->.
  { repeat (apply elem_of_cons in Hlevel as [->|Hlevel]; [reflexivity|]). inversion Hlevel. }
  assert (in_services (Some (sl_id listing)) = true) as ->; [|reflexivity].
  apply in_services_listed. unfold get_services in Hlisted.
  apply list_elem_of_fmap in Hlisted as ([key service] & -> & Hitem).
  apply list_elem_of_fmap. exists (key, service). split; [reflexivity|exact Hitem].
Qed.

End practice_endpoint.

Lemma listed_services_are_practicable_witness :
  fst (fst (@get_practice_question ascii_case answering fresh_app
              {| pr_difficulty := Some (Some "advanced");
                 pr_service := Some (Some "rds");
                 pr_topic := None |})) = 200.
Proof.
  apply (@listed_services_are_practicable ascii_case answering fresh_app
           {| sl_id := "rds"; sl_name := "Amazon RDS";
              sl_description := "Relational Database Service";
              sl_subtopics := ["engines"; "multi-az"; "read replicas"; "backups";
                               "encryption"; "performance insights"] |}
           "advanced" None).
  - vm_compute. do 5 right. left.
  - do 2 right. left.
Defined.

(** ** Replies without the generation service *)

Section offline_replies.
Context `{CaseOps}.

(** With no key configured, in any reachable state, a turn on the text path
    (no greeting, no practice request, no image) is always answered from
    the knowledge base: either with the services menu, when no service is
    in play, or with the formatted entry of a service the knowledge base
    has, together with that entry and the suggestions built from its first
    three subtopics.  It is never the apology and never the "no detailed
    info" text. *)
Theorem offline_text_reply (w : World) (app : App) (message : string)
    (image_data session_id : option string) :
  reachable app ->
  GEMINI_API_KEY w = None ->
  any_in greeting_words (str_lower message) = false ->
  any_in practice_words (str_lower message) = false ->
  truthy image_data = false ->
  let context := get_context (conversations app) (resolved_session w session_id) in
  exists response,
    fst (process_message w app message image_data session_id) = Ok response
    /\ ((r_message response = services_menu
         /\ r_service_info response = None
         /\ r_follow_up_suggestions response = []
         /\ detect_service message = None)
        \/ exists service entry,
             assoc service AWS_SERVICES = Some entry
             /\ (detect_service message = Some service
                 \/ (detect_service message = None
                     /\ current_service context = Some service
                     /\ is_follow_up message context = true))
             /\ r_service_info response = Some entry
             /\ r_message response
                = format_service_info service (detect_access_method message)
                    (if truthy (detect_service message)
                     then detect_topic message (detect_service message) else None)
             /\ r_follow_up_suggestions response
                = suggestions service (svc_subtopics entry)).
Proof.
  intros Hreach Hkey Hgreet Hpractice Himage context.
  assert (gemini_available w = false) as Hoff by (unfold gemini_available; now rewrite Hkey).
  pose proof (sticky_known_context _ (resolved_session w session_id)
                (reachable_sticky_known_core _ Hreach)) as Hsticky.
  fold context in Hsticky.
  pose proof (detected_service_has_entry_core message) as Hdet.
  unfold process_message, try_body. cbv zeta. cbn [f_message].
  fold (resolved_session w session_id). fold context.
  rewrite Hgreet, Hpractice. unfold text_branch. cbv zeta. cbn [f_message].
  rewrite Himage, Hoff. cbn [mret Exc_ret].
  destruct (detect_service message) as [service|] eqn:Hservice.
  - destruct Hdet as [[entry Hentry] Htruthy].
    assert ((if is_follow_up message context && truthy (current_service context)
             then py_or (Some service) (current_service context) else Some service)
            = Some service) as ->.
    { unfold py_or. rewrite Htruthy. now destruct (_ && _). }
    rewrite Htruthy. cbn [py_str]. rewrite Hentry.
    cbv beta iota. eexists. split; [erewrite closing_store_bound by reflexivity; reflexivity|].
    right. exists service, entry. repeat split; auto.
  - cbn [py_or truthy].
    destruct (is_follow_up message context) eqn:Hfollow; cbn [andb].
    + destruct (current_service context) as [[|c sticky]|] eqn:Hcurrent; cbn [truthy].
      * destruct Hsticky as [entry Hentry]. vm_compute in Hentry. discriminate Hentry.
      * destruct Hsticky as [entry Hentry]. cbn [py_str]. rewrite Hentry.
        cbv beta iota. eexists. split; [erewrite closing_store_bound by reflexivity; reflexivity|].
        right. exists (String c sticky), entry. repeat split; auto.
      * cbn [andb truthy py_or py_str]. eexists. split; [erewrite closing_store_bound by reflexivity; reflexivity|].
        left. repeat split.
    + cbn [andb truthy py_or py_str]. eexists. split; [erewrite closing_store_bound by reflexivity; reflexivity|].
      left. repeat split.
Qed.

End offline_replies.

Lemma offline_text_reply_witness :
  exists response,
    fst (@process_message ascii_case offline fresh_app "vpc subnets kaise banaye cli se"
           None None) = Ok response
    /\ r_message response
       = @format_service_info ascii_case "vpc" (Some "cli") (Some "subnets").
Proof.
  assert (any_in greeting_words (@str_lower ascii_case "vpc subnets kaise banaye cli se")
          = false) as Hgreet by (vm_compute; reflexivity).
  assert (any_in practice_words (@str_lower ascii_case "vpc subnets kaise banaye cli se")
          = false) as Hpractice by (vm_compute; reflexivity).
  destruct (@offline_text_reply ascii_case offline fresh_app
              "vpc subnets kaise banaye cli se" None None
              reach_start eq_refl Hgreet Hpractice eq_refl)
    as (response & Hpm & [(_ & _ & _ & Hnone)|(service & entry & _ & Hsource & _ & Hmsg & _)]).
  - vm_compute in Hnone. discriminate Hnone.
  - exists response. split; [exact Hpm|].
    destruct Hsource as [Hdet|(Hdet & _)]; vm_compute in Hdet;
      [injection Hdet as <-|discriminate Hdet].
    rewrite Hmsg. vm_compute. reflexivity.
Defined.
